(** * Sakura profile / authentication front-end: session manager and
      profile editor

    Shallow embedding of [src/components/profile/EditProfileForm.tsx]
    (the profile-edit form, lines 1-252) and of the [AuthProvider] that
    follows it in the same file (lines 253-619).

    Every asynchronous function of the source is a workflow over a
    third-party client: it alternates local effects (React state setters,
    toasts, navigation, console output) with awaited provider calls.  It is
    embedded as a finite tree of effects ([Prog]); the provider is never
    modelled inside the program, it is the environment that answers the
    calls.  Two semantics are given:
    - [run]: every awaited call is answered at once by an environment
      [Env]; used for what a single workflow does from call to return;
    - [start] / [deliver]: a workflow runs up to its first [await] and is
      then parked in a list of in-flight tasks; used for what an event
      handler does synchronously while other workflows are suspended. *)

From Stdlib Require Import String Ascii ZArith List Bool Lia DecimalString.
Import ListNotations.
Open Scope string_scope.
Open Scope Z_scope.

Set Implicit Arguments.

(* ================================================================== *)
(** ** JavaScript strings

    A string is a sequence of code units; only code units below 256 are
    represented (one [ascii] each).  Usernames accepted by the form are
    ASCII, so nothing is lost on them. *)

Module Js.

(** [WhiteSpace] and [LineTerminator] code units below 256, as stripped by
    [String.prototype.trim]. *)
Definition is_space (c : ascii) : bool :=
  let n := N_of_ascii c in
  (N.eqb n 9 || N.eqb n 10 || N.eqb n 11 || N.eqb n 12 || N.eqb n 13
   || N.eqb n 32 || N.eqb n 160)%bool.

Fixpoint trimStart (s : string) : string :=
  match s with
  | String c rest => if is_space c then trimStart rest else s
  | EmptyString => EmptyString
  end.

Fixpoint rev_onto (s acc : string) : string :=
  match s with
  | EmptyString => acc
  | String c rest => rev_onto rest (String c acc)
  end.

Definition rev (s : string) : string := rev_onto s EmptyString.

Definition trimEnd (s : string) : string := rev (trimStart (rev s)).

Definition trim (s : string) : string := trimEnd (trimStart s).

(** [s.split(sep)] for a one-character separator: never empty, the empty
    string splits into one empty piece. *)
Fixpoint split (sep : ascii) (s : string) : list string :=
  match s with
  | EmptyString => [EmptyString]
  | String c rest =>
      if Ascii.eqb c sep then EmptyString :: split sep rest
      else match split sep rest with
           | h :: t => String c h :: t
           | [] => [String c EmptyString]
           end
  end.

(** [arr.pop()] of a freshly built array: its last element, [undefined]
    on the empty array. *)
Definition pop (l : list string) : option string :=
  match l with
  | [] => None
  | _ => Some (last l EmptyString)
  end.

Definition lower_char (c : ascii) : ascii :=
  let n := N_of_ascii c in
  if ((N.leb 65 n && N.leb n 90)
      || (N.leb 192 n && N.leb n 222 && negb (N.eqb n 215)))%bool
  then ascii_of_N (n + 32) else c.

Fixpoint toLowerCase (s : string) : string :=
  match s with
  | EmptyString => EmptyString
  | String c rest => String (lower_char c) (toLowerCase rest)
  end.

Definition startsWith (s pre : string) : bool := String.prefix pre s.

(** Truthiness of a string value: every string but the empty one. *)
Definition truthy (s : string) : bool := negb (String.eqb s EmptyString).

(** Truthiness of [string | null | undefined]. *)
Definition truthy_opt (s : option string) : bool :=
  match s with Some x => truthy x | None => false end.

(** [a || b] on strings. *)
Definition or_else (a : option string) (b : string) : string :=
  match a with
  | Some x => if truthy x then x else b
  | None => b
  end.

(** Template-literal rendering of an integral number. *)
Definition of_number (z : Z) : string := NilZero.string_of_int (Z.to_int z).

Definition len (s : string) : Z := Z.of_nat (String.length s).

(** One character of the class [[a-zA-Z0-9_]]. *)
Definition word_char (c : ascii) : bool :=
  let n := N_of_ascii c in
  ((N.leb 97 n && N.leb n 122) || (N.leb 65 n && N.leb n 90)
   || (N.leb 48 n && N.leb n 57) || N.eqb n 95)%bool.

Fixpoint all_chars (f : ascii -> bool) (s : string) : bool :=
  match s with
  | EmptyString => true
  | String c rest => f c && all_chars f rest
  end.

(** [/^[a-zA-Z0-9_]+$/.test(s)]: one or more characters, all of the
    class (no [m] flag, so [$] is the end of the input). *)
Definition test_word_plus (s : string) : bool :=
  (truthy s && all_chars word_char s)%bool.

Definition includes (l : list string) (s : string) : bool :=
  existsb (String.eqb s) l.

End Js.

(* ================================================================== *)
(** ** Data model *)

(** A JavaScript error value: [new Error(msg)] has no [code]; provider
    errors carry one (["PGRST116"] is the "no rows" signal). *)
Record JsError : Type := mkError {
  code : option string;
  message : string
}.

Definition Error (msg : string) : JsError := mkError None msg.

Definition is_PGRST116 (e : JsError) : bool :=
  match code e with
  | Some c => String.eqb c "PGRST116"
  | None => false
  end.

(** [User] of the provider SDK, restricted to the members the source reads:
    [id], [email], [email_confirmed_at], [user_metadata.display_name],
    [identities]. *)
Module User.
Record t : Type := mk {
  id : string;
  email : option string;
  email_confirmed_at : option string;
  display_name : option string;
  identities : option (list string)
}.
End User.

(** [Session]: opaque credentials plus the user they belong to (the SDK
    type makes [user] mandatory). *)
Module Session.
Record t : Type := mk {
  access_token : string;
  user : User.t
}.
End Session.

(** [interface Profile] (lines 259-266). *)
Module Profile.
Record t : Type := mk {
  id : string;
  username : string;
  display_name : option string;
  avatar_url : option string;
  bio : option string;
  coins : Z
}.
End Profile.

(** [Partial<Profile>]: [None] is an absent key.  A key that is present with
    the value [null] or [undefined] is [Some None]. *)
Module Partial.
Record t : Type := mk {
  id : option string;
  username : option string;
  display_name : option (option string);
  avatar_url : option (option string);
  bio : option (option string);
  coins : option Z
}.

Definition empty : t := mk None None None None None None.

Definition pick {A} (new : option A) (old : A) : A :=
  match new with Some v => v | None => old end.

(** [{ ...prev, ...updates }] *)
Definition spread (prev : Profile.t) (updates : t) : Profile.t :=
  Profile.mk
    (pick (id updates) (Profile.id prev))
    (pick (username updates) (Profile.username prev))
    (pick (display_name updates) (Profile.display_name prev))
    (pick (avatar_url updates) (Profile.avatar_url prev))
    (pick (bio updates) (Profile.bio prev))
    (pick (coins updates) (Profile.coins prev)).
End Partial.

(** The [File] members read by [uploadAvatar]. *)
Module File.
Record t : Type := mk {
  type : string;
  size : Z;
  name : string
}.
End File.

(** [{ data, error }] of a row query ended by [.single()]. *)
Record QueryResult (A : Type) : Type := mkQuery {
  data : option A;
  error : option JsError
}.

(** The draft held by the form ([formData], lines 23-27). *)
Record FormData : Type := mkForm {
  form_username : string;
  form_display_name : string;
  form_bio : string
}.

(** [AuthChangeEvent]: the four events the source names, and any other. *)
Inductive AuthEvent : Type :=
| SIGNED_IN
| SIGNED_OUT
| TOKEN_REFRESHED
| USER_UPDATED
| OTHER_EVENT (name : string).

Definition is_signed_out (e : AuthEvent) : bool :=
  match e with SIGNED_OUT => true | _ => false end.

Definition is_signed_in (e : AuthEvent) : bool :=
  match e with SIGNED_IN => true | _ => false end.

(* ================================================================== *)
(** ** Effects *)

(** Awaited calls to the provider client.  The comment of each constructor
    is the source expression it stands for. *)
Inductive Call : Type :=
| AuthSignOut                        (* supabase.auth.signOut() *)
| AuthGetUser                        (* supabase.auth.getUser() *)
| AuthSignUp (email password username display_name emailRedirectTo : string)
                                     (* supabase.auth.signUp({...}) *)
| ProfilesSelectById (userId : string)
    (* from('profiles').select('*').eq('id', userId).single() *)
| ProfilesInsert (row : Profile.t)
    (* from('profiles').insert([row]).select().single() *)
| ProfilesSelectUsername (username : string)
    (* from('profiles').select('username').eq('username', username).single() *)
| ProfilesSelectUsernameOther (userId username : string)
    (* from('profiles').select('username').neq('id', userId)
         .eq('username', username).single() *)
| ProfilesUpdate (userId : string) (updates : Partial.t)
    (* from('profiles').update(updates).eq('id', userId) *)
| StorageRemove (path : string)
    (* storage.from('avatars').remove([path]) *)
| StorageUpload (fileName : string) (file : File.t).
    (* storage.from('avatars').upload(fileName, file) *)

(** [{ data: { user }, error }] of [auth.signUp]. *)
Record SignUpResult : Type := mkSignUp {
  signup_user : option User.t;
  signup_error : option JsError
}.

(** What each call resolves to.  The client reports provider failures in
    the [error] member of the resolved value; it does not reject. *)
Definition Resp (c : Call) : Type :=
  match c with
  | AuthSignOut => option JsError
  | AuthGetUser => option User.t
  | AuthSignUp _ _ _ _ _ => SignUpResult
  | ProfilesSelectById _ => QueryResult Profile.t
  | ProfilesInsert _ => QueryResult Profile.t
  | ProfilesSelectUsername _ => QueryResult string
  | ProfilesSelectUsernameOther _ _ => QueryResult string
  | ProfilesUpdate _ _ => option JsError
  | StorageRemove _ => option JsError
  | StorageUpload _ _ => option JsError
  end.

(** Values read from the environment without suspending. *)
Inductive Query : Type :=
| DateNow                            (* Date.now() *)
| WindowOrigin                       (* window.location.origin *)
| GetPublicUrl (fileName : string).
    (* storage.from('avatars').getPublicUrl(fileName).data.publicUrl *)

Definition Answer (q : Query) : Type :=
  match q with
  | DateNow => Z
  | WindowOrigin => string
  | GetPublicUrl _ => string
  end.

Inductive Variant : Type := Default | Destructive.

(** Effects that leave the two components; they are only recorded. *)
Inductive UiEvent : Type :=
| Toast (title description : string) (variant : Variant)
| Navigate (path : string)
| ConsoleLog (text : string)
| ConsoleError (text : string)
| PreventDefault
| OnProfileUpdate
| OnOpenChange (open : bool).

(** The four pieces of state of [AuthProvider] (lines 282-285). *)
Record AuthState : Type := mkAuth {
  session : option Session.t;
  user : option User.t;
  profile : option Profile.t;
  isLoading : bool
}.

(** Everything local to the page: provider state, the form's own
    [isLoading] (line 22), and the events emitted so far (oldest first). *)
Record Local : Type := mkLocal {
  auth : AuthState;
  formLoading : bool;
  ui : list UiEvent
}.

(** Local effects.  [SetProfileWith] is the updater form of [setProfile]. *)
Inductive Action : Type :=
| SetSession (s : option Session.t)
| SetUser (u : option User.t)
| SetProfile (p : option Profile.t)
| SetProfileWith (f : option Profile.t -> option Profile.t)
| SetIsLoading (b : bool)
| SetFormLoading (b : bool)
| Emit (e : UiEvent).

Definition with_auth (f : AuthState -> AuthState) (l : Local) : Local :=
  mkLocal (f (auth l)) (formLoading l) (ui l).

Definition apply (a : Action) (l : Local) : Local :=
  match a with
  | SetSession s =>
      with_auth (fun st => mkAuth s (user st) (profile st) (isLoading st)) l
  | SetUser u =>
      with_auth (fun st => mkAuth (session st) u (profile st) (isLoading st)) l
  | SetProfile p =>
      with_auth (fun st => mkAuth (session st) (user st) p (isLoading st)) l
  | SetProfileWith f =>
      with_auth
        (fun st => mkAuth (session st) (user st) (f (profile st)) (isLoading st)) l
  | SetIsLoading b =>
      with_auth (fun st => mkAuth (session st) (user st) (profile st) b) l
  | SetFormLoading b => mkLocal (auth l) b (ui l)
  | Emit e => mkLocal (auth l) (formLoading l) (ui l ++ [e])
  end.

(** A workflow: a finite tree of effects ending in a value or in a thrown
    error. *)
Inductive Prog (A : Type) : Type :=
| Ret (a : A)
| Throw (e : JsError)
| Act (a : Action) (k : Prog A)
| Ask (q : Query) (k : Answer q -> Prog A)
| Await (c : Call) (k : Resp c -> Prog A).

Arguments Throw {A} e.

Fixpoint bind {A B} (p : Prog A) (f : A -> Prog B) : Prog B :=
  match p with
  | Ret a => f a
  | Throw e => Throw e
  | Act a k => Act a (bind k f)
  | Ask q k => Ask q (fun x => bind (k x) f)
  | Await c k => Await c (fun x => bind (k x) f)
  end.

(** [try { p } catch (error) { h error }] *)
Fixpoint try_catch {A} (p : Prog A) (h : JsError -> Prog A) : Prog A :=
  match p with
  | Ret a => Ret a
  | Throw e => h e
  | Act a k => Act a (try_catch k h)
  | Ask q k => Ask q (fun x => try_catch (k x) h)
  | Await c k => Await c (fun x => try_catch (k x) h)
  end.

(** [try { p } finally { q }]: [q] runs on both exits and the exit of [p]
    is kept. *)
Fixpoint finally {A} (p : Prog A) (q : Prog unit) : Prog A :=
  match p with
  | Ret a => bind q (fun _ => Ret a)
  | Throw e => bind q (fun _ => Throw e)
  | Act a k => Act a (finally k q)
  | Ask q0 k => Ask q0 (fun x => finally (k x) q)
  | Await c k => Await c (fun x => finally (k x) q)
  end.

Definition act (a : Action) : Prog unit := Act a (Ret tt).
Definition await (c : Call) : Prog (Resp c) := Await c (fun r => Ret r).
Definition dateNow : Prog Z := Ask DateNow (fun r => Ret r).
Definition windowOrigin : Prog string := Ask WindowOrigin (fun r => Ret r).
Definition getPublicUrl (fileName : string) : Prog string :=
  Ask (GetPublicUrl fileName) (fun r => Ret r).
Definition toast (title description : string) (v : Variant) : Prog unit :=
  act (Emit (Toast title description v)).
Definition emit (e : UiEvent) : Prog unit := act (Emit e).

Declare Scope prog_scope.
Delimit Scope prog_scope with prog.
Bind Scope prog_scope with Prog.
Notation "x <- p ;; q" := (bind p (fun x => q))
  (at level 61, p at next level, right associativity) : prog_scope.
Notation "p ;; q" := (bind p (fun _ => q))
  (at level 61, right associativity) : prog_scope.
Open Scope prog_scope.

(* ================================================================== *)
(** ** Semantics *)

(** The environment: a provider with state [B] that resolves every call
    (possibly changing its state) and answers every synchronous query. *)
Record Env (B : Type) : Type := mkEnv {
  respond : forall c : Call, B -> Resp c * B;
  answer : forall q : Query, B -> Answer q
}.

Inductive Outcome (A : Type) : Type :=
| Returned (a : A)
| Thrown (e : JsError).

Arguments Thrown {A} e.

Record Result (A B : Type) : Type := mkResult {
  outcome : Outcome A;
  final : Local;
  calls : list Call;
  world : B
}.

(** Run a workflow to its end; [tr] is the list of calls issued so far
    (oldest first). *)
Fixpoint run {A B} (env : Env B) (p : Prog A) (l : Local) (tr : list Call)
  (b : B) : Result A B :=
  match p with
  | Ret a => mkResult (Returned a) l tr b
  | Throw e => mkResult (Thrown e) l tr b
  | Act a k => run env k (apply a l) tr b
  | Ask q k => run env (k (answer env q b)) l tr b
  | Await c k =>
      run env (k (fst (respond env c b))) l (tr ++ [c]) (snd (respond env c b))
  end.

(** A workflow suspended at an [await]. *)
Record Task : Type := mkTask {
  awaiting : Call;
  resume : Resp awaiting -> Prog unit
}.

(** Run the synchronous prefix of a workflow: up to its end, or up to its
    first [await], where it is parked. *)
Fixpoint start (ans : forall q : Query, Answer q) (p : Prog unit) (l : Local)
  : Local * option Task :=
  match p with
  | Ret _ => (l, None)
  | Throw _ => (l, None)
  | Act a k => start ans k (apply a l)
  | Ask q k => start ans (k (ans q)) l
  | Await c k => (l, Some (mkTask c k))
  end.

(** The page between two turns of the event loop: local state and the
    workflows waiting for the provider. *)
Record System : Type := mkSystem {
  local : Local;
  inflight : list Task
}.

Definition spawn (ans : forall q : Query, Answer q) (p : Prog unit)
  (sys : System) : System :=
  let '(l, t) := start ans p (local sys) in
  mkSystem l (inflight sys ++ match t with Some x => [x] | None => [] end).

(** The provider resolves a row query by id awaited by [t] with [r]: what
    the workflow continues with ([None] when [t] awaits another call). *)
Definition resume_with_row (t : Task) (r : QueryResult Profile.t)
  : option (Prog unit) :=
  match awaiting t as c return (Resp c -> Prog unit) -> option (Prog unit) with
  | ProfilesSelectById _ => fun k => Some (k r)
  | _ => fun _ => None
  end (resume t).

(* ================================================================== *)
(** ** AuthProvider (lines 281-612) *)

Definition throw_if (cond : bool) (msg : string) : Prog unit :=
  if cond then Throw (Error msg) else Ret tt.

(** The [username] member of the row inserted at line 400:
    [userData.user.email?.split('@')[0] || `user_${Date.now()}`]; the clock
    is read only when the left operand is falsy. *)
Definition defaultUsername (u : User.t) : Prog string :=
  match User.email u with
  | Some e =>
      let localPart := hd EmptyString (Js.split "@" e) in
      if Js.truthy localPart then Ret localPart
      else now <- dateNow ;; Ret ("user_" ++ Js.of_number now)
  | None => now <- dateNow ;; Ret ("user_" ++ Js.of_number now)
  end.

(** [user_metadata?.display_name || null] *)
Definition or_null (s : option string) : option string :=
  if Js.truthy_opt s then s else None.

(** [fetchProfile] (lines 378-436). *)
Definition fetchProfile (userId : string) : Prog unit :=
  finally
    (try_catch
       (act (SetIsLoading true) ;;
        r <- await (ProfilesSelectById userId) ;;
        match error r with
        | Some err =>
            if is_PGRST116 err then
              userData <- await AuthGetUser ;;
              match userData with
              | None => Throw (Error "User data not available")
              | Some u =>
                  uname <- defaultUsername u ;;
                  created <- await (ProfilesInsert
                    (Profile.mk userId uname (or_null (User.display_name u))
                                None None 0)) ;;
                  match error created with
                  | Some createError => Throw createError
                  | None =>
                      act (SetProfile (data created)) ;;
                      toast "Profile Created"
                            "Your profile has been created successfully."
                            Default
                  end
              end
            else Throw err
        | None => act (SetProfile (data r))
        end)
       (fun err =>
          emit (ConsoleError "Error in profile operation:") ;;
          toast "Error"
                (Js.or_else (Some (message err))
                   "There was an error loading your profile. Please try again.")
                Destructive ;;
          act (SetProfile None)))
    (act (SetIsLoading false)).

(** The callback given to [supabase.auth.onAuthStateChange]
    (lines 327-370).  [mounted] is the flag of the enclosing effect, read
    when the callback is entered.  Of the toast of lines 348-352 the title
    is kept without the emoji that ends it, and the [duration] is left
    out. *)
Definition onAuthStateChange (mounted : bool) (event : AuthEvent)
  (s : option Session.t) : Prog unit :=
  if mounted then
    emit (ConsoleLog "Auth state change:") ;;
    if is_signed_out event then
      act (SetSession None) ;;
      act (SetUser None) ;;
      act (SetProfile None) ;;
      act (SetIsLoading false)
    else
      act (SetSession s) ;;
      act (SetUser (option_map Session.user s)) ;;
      match s with
      | Some ses =>
          fetchProfile (User.id (Session.user ses)) ;;
          if (is_signed_in event
              && Js.truthy_opt (User.email_confirmed_at (Session.user ses)))%bool
          then toast "Account Verified!"
                     "Your email has been successfully verified. Welcome to SAKURAZE!"
                     Default
          else Ret tt
      | None =>
          act (SetProfile None) ;;
          act (SetIsLoading false)
      end ;;
      match event with
      | TOKEN_REFRESHED => emit (ConsoleLog "Auth token refreshed")
      | USER_UPDATED =>
          match s with
          | Some ses => fetchProfile (User.id (Session.user ses))
          | None => Ret tt
          end
      | _ => Ret tt
      end
  else Ret tt.

(** [data.user?.identities?.length === 0] *)
Definition no_identities (u : option User.t) : bool :=
  match u with
  | Some x => match User.identities x with
              | Some [] => true
              | _ => false
              end
  | None => false
  end.

(** [signUp] (lines 476-540); the result is the [error] member of the
    returned object. *)
Definition signUp (email password username : string)
  : Prog (option JsError) :=
  try_catch
    (existing <- await (ProfilesSelectUsername username) ;;
     match data existing with
     | Some _ =>
         toast "Signup Failed" "Username is already taken" Destructive ;;
         Ret (Some (Error "Username is already taken"))
     | None =>
         origin <- windowOrigin ;;
         r <- await (AuthSignUp email password username username
                                (origin ++ "/auth/callback")) ;;
         match signup_error r with
         | Some err =>
             emit (ConsoleError "Sign up error:") ;;
             toast "Signup Failed" (message err) Destructive ;;
             Ret (Some err)
         | None =>
             if no_identities (signup_user r) then
               toast "Account Exists"
                     "An account with this email already exists. Please log in instead."
                     Destructive ;;
               Ret (Some (Error "Account exists"))
             else
               toast "Signup Successful"
                     "Please check your email for confirmation." Default ;;
               Ret None
         end
     end)
    (fun err =>
       emit (ConsoleError "Unexpected sign up error:") ;;
       toast "Signup Failed"
             "An unexpected error occurred. Please try again." Destructive ;;
       Ret (Some err)).

(** [signOut] (lines 542-569). *)
Definition signOut : Prog unit :=
  try_catch
    (err <- await AuthSignOut ;;
     match err with
     | Some e => Throw e
     | None =>
         act (SetProfile None) ;;
         act (SetUser None) ;;
         act (SetSession None) ;;
         act (SetIsLoading false) ;;
         toast "Logged Out" "You have been logged out successfully." Default ;;
         emit (Navigate "/auth/login")
     end)
    (fun _ =>
       emit (ConsoleError "Sign out error:") ;;
       toast "Error" "Failed to log out. Please try again." Destructive).

(** [prev => prev ? { ...prev, ...updates } : null] (line 581). *)
Definition merge (updates : Partial.t) (prev : option Profile.t)
  : option Profile.t :=
  match prev with
  | Some p => Some (Partial.spread p updates)
  | None => None
  end.

(** [updateProfile] (lines 571-598).  [user] is the value of the state
    variable in the render that created the function; the result is the
    [error] member of the returned object. *)
Definition updateProfile (user : option User.t) (updates : Partial.t)
  : Prog (option JsError) :=
  try_catch
    (match user with
     | None => Throw (Error "User not authenticated")
     | Some u =>
         err <- await (ProfilesUpdate (User.id u) updates) ;;
         match err with
         | None =>
             act (SetProfileWith (merge updates)) ;;
             toast "Profile Updated"
                   "Your profile has been updated successfully." Default
         | Some e => toast "Update Failed" (message e) Destructive
         end ;;
         Ret err
     end)
    (fun e => Ret (Some e)).

(* ================================================================== *)
(** ** EditProfileForm (lines 19-250) *)

(** [`${user?.id}`] *)
Definition user_id_text (user : option User.t) : string :=
  match user with Some u => User.id u | None => "undefined" end.

(** [uploadAvatar] (lines 44-90); [None] is the [null] result. *)
Definition uploadAvatar (user : option User.t) (profile : option Profile.t)
  (file : File.t) : Prog (option string) :=
  try_catch
    (throw_if (negb (Js.startsWith (File.type file) "image/"))
              "Please upload an image file" ;;
     throw_if (2 * 1024 * 1024 <? File.size file)
              "Image size should be less than 2MB" ;;
     let fileExt := option_map Js.toLowerCase
                      (Js.pop (Js.split "." (File.name file))) in
     match fileExt with
     | None => Throw (Error "Please upload a valid image file (JPG, PNG, or GIF)")
     | Some ext =>
         throw_if (negb (Js.truthy ext)
                   || negb (Js.includes ["jpg"; "jpeg"; "png"; "gif"] ext))%bool
                  "Please upload a valid image file (JPG, PNG, or GIF)" ;;
         match profile with
         | Some p =>
             match Profile.avatar_url p with
             | Some url =>
                 if Js.truthy url then
                   match Js.pop (Js.split "/" url) with
                   | Some oldFilePath =>
                       if Js.truthy oldFilePath
                       then await (StorageRemove oldFilePath) ;; Ret tt
                       else Ret tt
                   | None => Ret tt
                   end
                 else Ret tt
             | None => Ret tt
             end
         | None => Ret tt
         end ;;
         now <- dateNow ;;
         let fileName :=
           user_id_text user ++ "-" ++ Js.of_number now ++ "." ++ ext in
         uploadError <- await (StorageUpload fileName file) ;;
         match uploadError with
         | Some e => Throw e
         | None =>
             publicUrl <- getPublicUrl fileName ;;
             Ret (Some publicUrl)
         end
     end)
    (fun err =>
       toast "Avatar Upload Failed"
             (Js.or_else (Some (message err)) "Failed to upload avatar")
             Destructive ;;
       Ret None).

(** The four username checks of [handleSubmit] (lines 102-113). *)
Definition usernameChecks (username : string) : Prog unit :=
  throw_if (negb (Js.truthy (Js.trim username))) "Username is required" ;;
  throw_if (Js.len username <? 3)
           "Username must be at least 3 characters long" ;;
  throw_if (30 <? Js.len username)
           "Username must be less than 30 characters" ;;
  throw_if (negb (Js.test_word_plus username))
           "Username can only contain letters, numbers, and underscores".

(** [formData.username !== profile?.username] *)
Definition username_changed (fd : FormData) (profile : option Profile.t)
  : bool :=
  match profile with
  | Some p => negb (String.eqb (form_username fd) (Profile.username p))
  | None => true
  end.

(** The uniqueness check of [handleSubmit] (lines 116-130). *)
Definition uniquenessCheck (u : User.t) (fd : FormData)
  (profile : option Profile.t) : Prog unit :=
  if username_changed fd profile then
    r <- await (ProfilesSelectUsernameOther (User.id u) (form_username fd)) ;;
    match data r with
    | Some _ => Throw (Error "Username is already taken")
    | None =>
        match error r with
        | Some checkError =>
            if negb (is_PGRST116 checkError) then Throw checkError else Ret tt
        | None => Ret tt
        end
    end
  else Ret tt.

(** [{ ...formData, avatar_url }] *)
Definition submitted (fd : FormData) (avatar_url : option string)
  : Partial.t :=
  Partial.mk None (Some (form_username fd))
             (Some (Some (form_display_name fd)))
             (Some avatar_url)
             (Some (Some (form_bio fd)))
             None.

(** The avatar step of [handleSubmit] (lines 132-141): the value of
    [avatar_url] that goes into the commit. *)
Definition avatarStep (user : option User.t) (profile : option Profile.t)
  (avatarFile : option File.t) : Prog (option string) :=
  let avatar_url :=
    match profile with
    | Some p => Profile.avatar_url p
    | None => None
    end in
  match avatarFile with
  | Some f =>
      uploadedUrl <- uploadAvatar user profile f ;;
      if Js.truthy_opt uploadedUrl then Ret uploadedUrl
      else Throw (Error "Failed to upload avatar")
  | None => Ret avatar_url
  end.

(** What follows the checks in [handleSubmit] (lines 132-156): the avatar
    step, the commit through [updateProfile], the success notifications. *)
Definition commitSubmission (user : option User.t)
  (profile : option Profile.t) (fd : FormData) (avatarFile : option File.t)
  : Prog unit :=
  avatar <- avatarStep user profile avatarFile ;;
  err <- updateProfile user (submitted fd avatar) ;;
  match err with
  | Some e => Throw e
  | None =>
      toast "Profile Updated"
            "Your profile has been updated successfully!" Default ;;
      emit OnProfileUpdate ;;
      emit (OnOpenChange false)
  end.

(** The [catch] block of [handleSubmit] (lines 157-162). *)
Definition reportFailure (err : JsError) : Prog unit :=
  toast "Error" (Js.or_else (Some (message err)) "Failed to update profile")
        Destructive.

(** [handleSubmit] (lines 92-166).  [user] and [profile] are the values
    obtained from [useAuth()] in the render that created the function;
    [updateProfile] comes from the same render. *)
Definition handleSubmit (user : option User.t) (profile : option Profile.t)
  (fd : FormData) (avatarFile : option File.t) : Prog unit :=
  emit PreventDefault ;;
  act (SetFormLoading true) ;;
  finally
    (try_catch
       (match user with
        | None => Throw (Error "You must be logged in to update your profile")
        | Some u =>
            usernameChecks (form_username fd) ;;
            uniquenessCheck u fd profile ;;
            commitSubmission user profile fd avatarFile
        end)
       reportFailure)
    (act (SetFormLoading false)).

(** An auth event reaches the subscribed callback: the callback runs up to
    its first [await]. *)
Definition deliver (ans : forall q : Query, Answer q) (mounted : bool)
  (event : AuthEvent) (s : option Session.t) (sys : System) : System :=
  spawn ans (onAuthStateChange mounted event s) sys.

(* ================================================================== *)
(** ** A reference provider

    An in-memory stand-in for the hosted backend: one [profiles] table kept
    as a list of rows (duplicates are representable), one bucket of blob
    names, the provider's notion of the current user, a clock, and two
    switches that make sign-out or every table operation fail.  It fixes
    the meaning of the calls where a statement needs one provider to be
    followed across several calls. *)

Module Store.

Record t : Type := mk {
  rows : list Profile.t;
  current_user : option User.t;
  blobs : list string;
  clock : Z;
  signOutError : option JsError;
  tableError : option JsError
}.

Definition set_rows (r : list Profile.t) (b : t) : t :=
  mk r (current_user b) (blobs b) (clock b) (signOutError b) (tableError b).

Definition set_blobs (bl : list string) (b : t) : t :=
  mk (rows b) (current_user b) bl (clock b) (signOutError b) (tableError b).

Definition noRows : JsError :=
  mkError (Some "PGRST116")
          "JSON object requested, multiple (or no) rows returned".

(** [.single()]: exactly one row, or the "no rows" signal. *)
Definition single {A} (l : list A) : QueryResult A :=
  match l with
  | [x] => mkQuery (Some x) None
  | _ => mkQuery None (Some noRows)
  end.

Definition query {A} (b : t) (l : list A) : QueryResult A :=
  match tableError b with
  | Some e => mkQuery None (Some e)
  | None => single l
  end.

Definition has_id (i : string) (p : Profile.t) : bool :=
  String.eqb (Profile.id p) i.

Definition has_username (u : string) (p : Profile.t) : bool :=
  String.eqb (Profile.username p) u.

Definition update_row (i : string) (upd : Partial.t) (p : Profile.t)
  : Profile.t :=
  if has_id i p then Partial.spread p upd else p.

Definition publicUrl (fileName : string) : string :=
  "https://mblblvftpfiysbwranap.supabase.co/storage/v1/object/public/avatars/"
  ++ fileName.

Definition respond (c : Call) : t -> Resp c * t :=
  match c as c0 return t -> Resp c0 * t with
  | AuthSignOut => fun b =>
      match signOutError b with
      | Some e => (Some e, b)
      | None => (None, mk (rows b) None (blobs b) (clock b) None (tableError b))
      end
  | AuthGetUser => fun b => (current_user b, b)
  | AuthSignUp email _ _ display_name _ => fun b =>
      (mkSignUp (Some (User.mk email (Some email) None (Some display_name)
                               (Some ["email"]))) None, b)
  | ProfilesSelectById i => fun b =>
      (query b (filter (has_id i) (rows b)), b)
  | ProfilesInsert row => fun b =>
      match tableError b with
      | Some e => (mkQuery None (Some e), b)
      | None => (mkQuery (Some row) None, set_rows (rows b ++ [row]) b)
      end
  | ProfilesSelectUsername u => fun b =>
      (query b (map Profile.username (filter (has_username u) (rows b))), b)
  | ProfilesSelectUsernameOther i u => fun b =>
      (query b (map Profile.username
                  (filter (fun p => negb (has_id i p) && has_username u p)%bool
                          (rows b))), b)
  | ProfilesUpdate i upd => fun b =>
      match tableError b with
      | Some e => (Some e, b)
      | None => (None, set_rows (map (update_row i upd) (rows b)) b)
      end
  | StorageRemove path => fun b =>
      (None, set_blobs (filter (fun n => negb (String.eqb n path)) (blobs b)) b)
  | StorageUpload fileName _ => fun b =>
      (None, set_blobs (blobs b ++ [fileName]) b)
  end.

Definition answer (q : Query) : t -> Answer q :=
  match q as q0 return t -> Answer q0 with
  | DateNow => fun b => clock b
  | WindowOrigin => fun _ => "https://sakura.example"
  | GetPublicUrl fileName => fun _ => publicUrl fileName
  end.

Definition env : Env t := mkEnv respond answer.

End Store.

(** A page on which nothing has happened yet. *)
Definition signedOut : AuthState := mkAuth None None None false.

Definition blank : Local := mkLocal (mkAuth None None None true) false [].

Definition signedIn (s : Session.t) (p : option Profile.t) : Local :=
  mkLocal (mkAuth (Some s) (Some (Session.user s)) p false) false [].

(* ================================================================== *)
(** ** Vocabulary of the statements

    Predicates on calls and events, the sample data of the concrete
    evaluations, the statements that are refuted, and the tactics shared by
    the proofs. *)

(** Carry on from where a run stopped. *)
Definition andThen {A B C} (r : Result A B)
  (k : A -> Local -> list Call -> B -> Result C B) : Result C B :=
  match outcome r with
  | Returned a => k a (final r) (calls r) (world r)
  | Thrown e => mkResult (Thrown e) (final r) (calls r) (world r)
  end.

(** Case analysis on the value a [match] of the goal inspects: a provider
    answer, a guard of the source. *)
Ltac split_match :=
  match goal with
  | |- context [match ?x with _ => _ end] => destruct x eqn:?
  end.

(** The statement "after [signOut] the state is cleared and the caller is on
    the login view, whatever the provider answered". *)
Definition signOut_clears_whatever_the_provider_answers : Prop :=
  forall (B : Type) (env : Env B) (l : Local) (tr : list Call) (b : B),
    let res := run env signOut l tr b in
    session (auth (final res)) = None
    /\ user (auth (final res)) = None
    /\ profile (auth (final res)) = None
    /\ In (Navigate "/auth/login") (ui (final res)).

(** Sample data: a user with a confirmed email, her session and profile
    row, a provider that works, a provider error. *)
Definition alice : User.t :=
  User.mk "u1" (Some "alice@example.com") (Some "2024-01-01T00:00:00Z")
          None (Some ["email"]).

Definition aliceSession : Session.t := Session.mk "token-1" alice.

Definition aliceRow : Profile.t :=
  Profile.mk "u1" "alice" (Some "Alice") None (Some "hello") 7.

Definition healthy (rows : list Profile.t) : Store.t :=
  Store.mk rows (Some alice) [] 1700000000000 None None.

Definition networkDown : JsError := mkError (Some "500") "network down".

(** A field after a merge: the supplied value if the key was supplied, the
    previous value otherwise. *)
Definition supplied_or_kept {A} (supplied : option A) (before after : A)
  : Prop :=
  match supplied with
  | Some v => after = v
  | None => after = before
  end.

Definition merged_exactly (updates : Partial.t) (before after : Profile.t)
  : Prop :=
  supplied_or_kept (Partial.id updates) (Profile.id before) (Profile.id after)
  /\ supplied_or_kept (Partial.username updates)
       (Profile.username before) (Profile.username after)
  /\ supplied_or_kept (Partial.display_name updates)
       (Profile.display_name before) (Profile.display_name after)
  /\ supplied_or_kept (Partial.avatar_url updates)
       (Profile.avatar_url before) (Profile.avatar_url after)
  /\ supplied_or_kept (Partial.bio updates)
       (Profile.bio before) (Profile.bio after)
  /\ supplied_or_kept (Partial.coins updates)
       (Profile.coins before) (Profile.coins after).

(** Run a workflow symbolically, splitting on every answer and guard it
    inspects. *)
Ltac crunch :=
  repeat (simpl;
          unfold defaultUsername, throw_if, dateNow, windowOrigin,
                 getPublicUrl;
          split_match);
  simpl.

(** The number of "Account Verified!" notifications among some events. *)
Definition is_verified_toast (e : UiEvent) : bool :=
  match e with
  | Toast title _ _ => String.eqb title "Account Verified!"
  | _ => false
  end.

Definition verified_toasts (evs : list UiEvent) : nat :=
  List.length (filter is_verified_toast evs).

Definition is_select_by_id (c : Call) : bool :=
  match c with ProfilesSelectById _ => true | _ => false end.

(** The local state once the callback has logged the event and stored the
    session and its user (lines 329, 340, 341). *)
Definition stored (s : Session.t) (l : Local) : Local :=
  apply (SetUser (Some (Session.user s)))
    (apply (SetSession (Some s))
       (apply (Emit (ConsoleLog "Auth state change:")) l)).

(** The statement "a [TOKEN_REFRESHED] event with a session updates the
    stored session and does nothing else: no call to the provider, the
    profile as it was". *)
Definition token_refreshed_only_stores_session : Prop :=
  forall (B : Type) (env : Env B) (s : Session.t) (l : Local)
         (tr : list Call) (b : B),
    let res := run env (onAuthStateChange true TOKEN_REFRESHED (Some s)) l tr b in
    session (auth (final res)) = Some s
    /\ profile (auth (final res)) = profile (auth l)
    /\ calls res = tr.

(** The row of alice after an edit made from another page. *)
Definition aliceRowEdited : Profile.t :=
  Profile.mk "u1" "alice" (Some "Alice") None (Some "edited elsewhere") 9.

(** The username [fetchProfile] gives a new row when the clock reads
    [now]: the part of the email before the first [@] when there is an
    email and that part is not empty, [user_<now>] otherwise. *)
Definition expectedUsername (u : User.t) (now : Z) : string :=
  match User.email u with
  | Some e =>
      if Js.truthy (hd EmptyString (Js.split "@" e))
      then hd EmptyString (Js.split "@" e)
      else "user_" ++ Js.of_number now
  | None => "user_" ++ Js.of_number now
  end.

(** The messages of the four username checks (lines 103, 106, 109, 112). *)
Definition requiredMsg : string := "Username is required".
Definition tooShortMsg : string :=
  "Username must be at least 3 characters long".
Definition tooLongMsg : string := "Username must be less than 30 characters".
Definition charsetMsg : string :=
  "Username can only contain letters, numbers, and underscores".

(** What the checks of [handleSubmit] decide, check by check: each
    rejection presupposes that the checks before it passed. *)
Inductive checked (s : string) : Prog unit -> Prop :=
| rejected_blank :
    Js.all_chars Js.is_space s = true ->
    checked s (Throw (Error requiredMsg))
| rejected_short :
    Js.all_chars Js.is_space s = false ->
    Js.len s < 3 ->
    checked s (Throw (Error tooShortMsg))
| rejected_long :
    Js.all_chars Js.is_space s = false ->
    3 <= Js.len s -> 30 < Js.len s ->
    checked s (Throw (Error tooLongMsg))
| rejected_charset :
    Js.all_chars Js.is_space s = false ->
    3 <= Js.len s <= 30 ->
    Js.all_chars Js.word_char s = false ->
    checked s (Throw (Error charsetMsg))
| accepted :
    3 <= Js.len s <= 30 ->
    Js.all_chars Js.word_char s = true ->
    checked s (Ret tt).

(** The checks as the specification words them: the first one asks for a
    non-empty username. *)
Definition usernameChecks_as_specified (username : string) : Prog unit :=
  throw_if (String.eqb username EmptyString) requiredMsg ;;
  throw_if (Js.len username <? 3) tooShortMsg ;;
  throw_if (30 <? Js.len username) tooLongMsg ;;
  throw_if (negb (Js.all_chars Js.word_char username)) charsetMsg.

(** The statement "the form runs the checks as the specification words
    them". *)
Definition usernameChecks_are_as_specified : Prop :=
  forall s : string, usernameChecks s = usernameChecks_as_specified s.

Definition is_uniqueness_query (c : Call) : bool :=
  match c with ProfilesSelectUsernameOther _ _ => true | _ => false end.

(** The submission from the avatar step on, inside the [try] of
    [handleSubmit]. *)
Definition commitPhase (user : option User.t) (profile : option Profile.t)
  (fd : FormData) (avatarFile : option File.t) : Prog unit :=
  finally
    (try_catch (commitSubmission user profile fd avatarFile) reportFailure)
    (act (SetFormLoading false)).

(** The local state when the [try] of [handleSubmit] is entered. *)
Definition submitting (l : Local) : Local :=
  apply (SetFormLoading true) (apply (Emit PreventDefault) l).

(** Closes [exists new, calls = tr ++ new /\ P new = false] once the run
    has been reduced to an explicit list of calls. *)
Ltac new_calls :=
  rewrite <- ?app_assoc; simpl;
  first [ eexists; split; [reflexivity | reflexivity]
        | exists []; split; [symmetry; apply app_nil_r | reflexivity] ].

(** A draft in which alice keeps her username, and the row of another
    user. *)
Definition aliceForm : FormData := mkForm "alice" "Alice A." "new bio".

Definition bobRow : Profile.t :=
  Profile.mk "u2" "bob" None None None 0.

(* ================================================================== *)
(** ** Session restoration, signIn and isAdmin

    [getInitialSession] (lines 292-323) and [signIn] (lines 438-474) of the
    [AuthProvider], and [isAdmin] of [src/integrations/supabase/client.ts]
    (lines 24-38), await three calls the workflows above never issue.  They
    are embedded over the calls of the whole application, [AppCall], into
    which the calls above are injected, so that [fetchProfile] is reused as
    it is ([lift]). *)

(** [{ data: { session }, error }] of [auth.getSession]. *)
Record SessionResult : Type := mkSessionResult {
  restored : option Session.t;
  restore_error : option JsError
}.

(** [{ data: { user }, error }] of [auth.signInWithPassword]. *)
Record SignInResult : Type := mkSignIn {
  signin_user : option User.t;
  signin_error : option JsError
}.

Inductive AppCall : Type :=
| Base (c : Call)
| AuthGetSession                     (* supabase.auth.getSession() *)
| AuthSignInWithPassword (email password : string)
    (* supabase.auth.signInWithPassword({ email, password }) *)
| ProfilesSelectIsAdmin (userId : string).
    (* from("profiles").select("is_admin").eq("id", userId).maybeSingle() *)

(** For [ProfilesSelectIsAdmin] the row is its [is_admin] member, [None]
    when that member is [null]. *)
Definition AppResp (c : AppCall) : Type :=
  match c with
  | Base c0 => Resp c0
  | AuthGetSession => SessionResult
  | AuthSignInWithPassword _ _ => SignInResult
  | ProfilesSelectIsAdmin _ => QueryResult (option bool)
  end.

Inductive Flow (A : Type) : Type :=
| FRet (a : A)
| FThrow (e : JsError)
| FAct (a : Action) (k : Flow A)
| FAsk (q : Query) (k : Answer q -> Flow A)
| FAwait (c : AppCall) (k : AppResp c -> Flow A).

Arguments FThrow {A} e.

(** A workflow over the calls above, as a workflow of the application. *)
Fixpoint lift {A} (p : Prog A) : Flow A :=
  match p with
  | Ret a => FRet a
  | Throw e => FThrow e
  | Act a k => FAct a (lift k)
  | Ask q k => FAsk q (fun x => lift (k x))
  | Await c k => FAwait (Base c) (fun x => lift (k x))
  end.

Fixpoint flow_bind {A C} (p : Flow A) (f : A -> Flow C) : Flow C :=
  match p with
  | FRet a => f a
  | FThrow e => FThrow e
  | FAct a k => FAct a (flow_bind k f)
  | FAsk q k => FAsk q (fun x => flow_bind (k x) f)
  | FAwait c k => FAwait c (fun x => flow_bind (k x) f)
  end.

Fixpoint flow_try_catch {A} (p : Flow A) (h : JsError -> Flow A) : Flow A :=
  match p with
  | FRet a => FRet a
  | FThrow e => h e
  | FAct a k => FAct a (flow_try_catch k h)
  | FAsk q k => FAsk q (fun x => flow_try_catch (k x) h)
  | FAwait c k => FAwait c (fun x => flow_try_catch (k x) h)
  end.

Definition fawait (c : AppCall) : Flow (AppResp c) := FAwait c (fun r => FRet r).

Declare Scope flow_scope.
Delimit Scope flow_scope with flow.
Bind Scope flow_scope with Flow.
Notation "x <- p ;; q" := (flow_bind p (fun x => q))
  (at level 61, p at next level, right associativity) : flow_scope.
Notation "p ;; q" := (flow_bind p (fun _ => q))
  (at level 61, right associativity) : flow_scope.

Record AppEnv (B : Type) : Type := mkAppEnv {
  app_respond : forall c : AppCall, B -> AppResp c * B;
  app_answer : forall q : Query, B -> Answer q
}.

Record AppResult (A B : Type) : Type := mkAppResult {
  app_outcome : Outcome A;
  app_final : Local;
  app_calls : list AppCall;
  app_world : B
}.

Fixpoint app_run {A B} (env : AppEnv B) (p : Flow A) (l : Local)
  (tr : list AppCall) (b : B) : AppResult A B :=
  match p with
  | FRet a => mkAppResult (Returned a) l tr b
  | FThrow e => mkAppResult (Thrown e) l tr b
  | FAct a k => app_run env k (apply a l) tr b
  | FAsk q k => app_run env (k (app_answer env q b)) l tr b
  | FAwait c k =>
      app_run env (k (fst (app_respond env c b))) l (tr ++ [c])
              (snd (app_respond env c b))
  end.

(** The provider of the application seen through the calls above. *)
Definition base_env {B} (env : AppEnv B) : Env B :=
  mkEnv (fun c => app_respond env (Base c)) (app_answer env).

(** [getInitialSession] (lines 292-323).  [mounted] is the flag of the
    enclosing effect when [getSession] has resolved; the [catch] block
    reads it in the same turn, since the only [throw] that reaches it is
    the one of line 296 ([fetchProfile] catches what it throws). *)
Definition getInitialSession (mounted : bool) : Flow unit :=
  flow_try_catch
    (r <- fawait AuthGetSession ;;
     match restore_error r with
     | Some e => FThrow e
     | None =>
         if mounted then
           lift (act (SetSession (restored r))) ;;
           lift (act (SetUser (option_map Session.user (restored r)))) ;;
           match restored r with
           | Some ses => lift (fetchProfile (User.id (Session.user ses)))
           | None =>
               lift (act (SetProfile None)) ;;
               lift (act (SetIsLoading false))
           end
         else FRet tt
     end)%flow
    (fun _ =>
       lift (emit (ConsoleError "Error getting initial session:")) ;;
       lift (toast "Auth Error"
                   "Failed to restore your session. Please log in again."
                   Destructive) ;;
       if mounted then
         lift (act (SetSession None)) ;;
         lift (act (SetUser None)) ;;
         lift (act (SetProfile None)) ;;
         lift (act (SetIsLoading false))
       else FRet tt)%flow.

(** [signIn] (lines 438-474); the result is the [error] member of the
    returned object. *)
Definition signIn (email password : string) : Flow (option JsError) :=
  flow_try_catch
    (r <- fawait (AuthSignInWithPassword email password) ;;
     match signin_error r with
     | Some err =>
         lift (emit (ConsoleError "Sign in error:")) ;;
         lift (toast "Login Failed" (message err) Destructive) ;;
         FRet (Some err)
     | None =>
         match signin_user r with
         | None => FThrow (Error "No user data received")
         | Some _ =>
             lift (toast "Login Successful" "Welcome back!" Default) ;;
             lift (emit (Navigate "/")) ;;
             FRet None
         end
     end)%flow
    (fun err =>
       lift (emit (ConsoleError "Unexpected sign in error:")) ;;
       lift (toast "Login Failed"
                   "An unexpected error occurred. Please try again."
                   Destructive) ;;
       FRet (Some err))%flow.

(** [data.is_admin || false] *)
Definition or_false (v : option bool) : bool :=
  match v with Some true => true | _ => false end.

(** [isAdmin] (client.ts, lines 24-38). *)
Definition isAdmin : Flow bool :=
  (u <- fawait (Base AuthGetUser) ;;
   match u with
   | None => FRet false
   | Some usr =>
       r <- fawait (ProfilesSelectIsAdmin (User.id usr)) ;;
       match error r, data r with
       | Some _, _ => FRet false
       | None, None => FRet false
       | None, Some row => FRet (or_false row)
       end
   end)%flow.

(* ================================================================== *)
(** ** Vocabulary of the further statements *)

Definition is_row_update (c : Call) : bool :=
  match c with ProfilesUpdate _ _ => true | _ => false end.

Definition is_insert (c : Call) : bool :=
  match c with ProfilesInsert _ => true | _ => false end.

Definition is_upload (c : Call) : bool :=
  match c with StorageUpload _ _ => true | _ => false end.

(** The bound of line 50 and the list of line 55. *)
Definition maxAvatarSize : Z := 2 * 1024 * 1024.

Definition imageExtensions : list string := ["jpg"; "jpeg"; "png"; "gif"].

(** [fileExt] of line 54. *)
Definition fileExtension (f : File.t) : option string :=
  option_map Js.toLowerCase (Js.pop (Js.split "." (File.name f))).

(** A file that passes the three validations of [uploadAvatar]
    (lines 47-57). *)
Definition acceptable (f : File.t) : bool :=
  (Js.startsWith (File.type f) "image/"
   && (File.size f <=? maxAvatarSize)
   && match fileExtension f with
      | Some ext => Js.truthy ext && Js.includes imageExtensions ext
      | None => false
      end)%bool.

(** The stored asset [uploadAvatar] deletes first (lines 60-67): the last
    [/]-separated piece of the current avatar URL, when there is one. *)
Definition oldAsset (profile : option Profile.t) : option string :=
  match profile with
  | Some p =>
      match Profile.avatar_url p with
      | Some url =>
          if Js.truthy url then
            match Js.pop (Js.split "/" url) with
            | Some piece => if Js.truthy piece then Some piece else None
            | None => None
            end
          else None
      | None => None
      end
  | None => None
  end.

(** The name of line 70. *)
Definition avatarFileName (user : option User.t) (now : Z) (ext : string)
  : string :=
  user_id_text user ++ "-" ++ Js.of_number now ++ "." ++ ext.

Definition avatarMessages : list string :=
  ["Please upload an image file";
   "Image size should be less than 2MB";
   "Please upload a valid image file (JPG, PNG, or GIF)"].

(** No occurrence of [c] in [s]. *)
Definition has_no (c : ascii) (s : string) : bool :=
  Js.all_chars (fun x => negb (Ascii.eqb x c)) s.

Definition photo : File.t := File.mk "image/png" 1048576 "holiday.2024.PNG".

Definition notes : File.t := File.mk "text/plain" 12 "notes.txt".

Definition aliceWithAvatar : Profile.t :=
  Profile.mk "u1" "alice" (Some "Alice")
    (Some "https://cdn.example/storage/v1/object/public/avatars/u1-1.png")
    None 7.

Definition is_destructive (e : UiEvent) : bool :=
  match e with Toast _ _ Destructive => true | _ => false end.

Definition is_navigation (e : UiEvent) : bool :=
  match e with Navigate _ => true | _ => false end.

(** A row as [fetchProfile] creates it for [userId]. *)
Definition fresh_row_for (userId : string) (c : Call) : Prop :=
  match c with
  | ProfilesInsert row =>
      Profile.id row = userId
      /\ Profile.username row <> EmptyString
      /\ Profile.avatar_url row = None
      /\ Profile.bio row = None
      /\ Profile.coins row = 0
  | _ => True
  end.

Definition serverError : JsError := mkError (Some "PGRST301") "JWT expired".

Definition failingTable (rows : list Profile.t) : Store.t :=
  Store.mk rows (Some alice) [] 1700000000000 None (Some serverError).

(** A user whose email is not confirmed yet, and her session. *)
Definition carol : User.t :=
  User.mk "u3" (Some "carol@example.com") None None (Some ["email"]).

Definition carolSession : Session.t := Session.mk "token-3" carol.

(** [handleSubmit] once the user is known and the username checks have
    passed (lines 115-165). *)
Definition checkedPhase (u : User.t) (p : option Profile.t) (fd : FormData)
  (file : option File.t) : Prog unit :=
  finally
    (try_catch
       (uniquenessCheck u fd p ;; commitSubmission (Some u) p fd file)
       reportFailure)
    (act (SetFormLoading false)).

(** The two effects by which the form reports success to its owner
    (lines 155-156). *)
Definition is_form_callback (e : UiEvent) : bool :=
  match e with
  | OnProfileUpdate => true
  | OnOpenChange _ => true
  | _ => false
  end.

(** A username the [profiles] table is meant to hold. *)
Definition valid_username (s : string) : Prop :=
  3 <= Js.len s <= 30 /\ Js.all_chars Js.word_char s = true.

(** A row update as the form may issue it for user [u]. *)
Definition form_update_of (u : User.t) (c : Call) : Prop :=
  match c with
  | ProfilesUpdate i upd =>
      i = User.id u
      /\ Partial.id upd = None
      /\ Partial.coins upd = None
      /\ exists s, Partial.username upd = Some s /\ valid_username s
  | _ => True
  end.

(** The last two calls are the upload of [f] and a row update that carries
    a non-empty avatar URL. *)
Definition upload_then_update (f : File.t) (new : list Call) : Prop :=
  match rev new with
  | ProfilesUpdate _ upd :: StorageUpload _ f' :: _ =>
      f' = f
      /\ exists url,
           Partial.avatar_url upd = Some (Some url) /\ Js.truthy url = true
  | _ => False
  end.

(** A user whose email has a dot in its local part. *)
Definition john : User.t :=
  User.mk "u4" (Some "john.doe@example.com") None None (Some ["email"]).

(** A second row held under the username of bob. *)
Definition bobTwin : Profile.t :=
  Profile.mk "u5" "bob" (Some "Bobby") None None 3.

(** The row query for the user [uid] and no other. *)
Definition is_row_query_for (uid : string) (c : Call) : bool :=
  match c with
  | ProfilesSelectById i => String.eqb i uid
  | _ => false
  end.

Definition quotaExceeded : JsError :=
  mkError (Some "413") "The object exceeded the maximum allowed size".

(** The reference provider with a bucket that refuses every upload. *)
Definition refusingUploads : Env Store.t :=
  mkEnv
    (fun c =>
       match c as c0 return Store.t -> Resp c0 * Store.t with
       | StorageUpload _ _ => fun b => (Some quotaExceeded, b)
       | c0 => Store.respond c0
       end)
    Store.answer.

(* ================================================================== *)
(** ** General facts about the semantics *)

Section RunLaws.

Context {B : Type} (env : Env B).

Lemma run_bind A C (p : Prog A) (f : A -> Prog C) l tr b :
  run env (bind p f) l tr b
  = andThen (run env p l tr b) (fun a => run env (f a)).
Proof.
  revert l tr b.
  induction p as [a|e|a k IH|q k IH|c k IH]; intros l tr b; simpl;
    try reflexivity.
  - apply IH.
  - apply IH.
  - apply IH.
Qed.

Lemma run_try_catch A (p : Prog A) (h : JsError -> Prog A) l tr b :
  run env (try_catch p h) l tr b
  = match outcome (run env p l tr b) with
    | Returned _ => run env p l tr b
    | Thrown e =>
        run env (h e) (final (run env p l tr b)) (calls (run env p l tr b))
            (world (run env p l tr b))
    end.
Proof.
  revert l tr b.
  induction p as [a|e|a k IH|q k IH|c k IH]; intros l tr b; simpl;
    try reflexivity.
  - apply IH.
  - apply IH.
  - apply IH.
Qed.

Lemma run_finally A (p : Prog A) (q : Prog unit) l tr b :
  run env (finally p q) l tr b
  = let r := run env p l tr b in
    let r' := run env q (final r) (calls r) (world r) in
    match outcome r' with
    | Returned _ => mkResult (outcome r) (final r') (calls r') (world r')
    | Thrown e => mkResult (Thrown e) (final r') (calls r') (world r')
    end.
Proof.
  revert l tr b.
  induction p as [a|e|a k IH|q0 k IH|c k IH]; intros l tr b; simpl.
  - rewrite run_bind. unfold andThen.
    destruct (outcome (run env q l tr b)); reflexivity.
  - rewrite run_bind. unfold andThen.
    destruct (outcome (run env q l tr b)); reflexivity.
  - apply IH.
  - apply IH.
  - apply IH.
Qed.

(** A workflow whose synchronous prefix is the whole of it issues no call
    and ends in the state that prefix reaches. *)
Lemma start_finished_run (p : Prog unit) l tr b :
  snd (start (fun q => answer env q b) p l) = None ->
  final (run env p l tr b) = fst (start (fun q => answer env q b) p l)
  /\ calls (run env p l tr b) = tr
  /\ world (run env p l tr b) = b.
Proof.
  revert l.
  induction p as [a|e|a k IH|q k IH|c k IH]; intros l H; simpl in *.
  - auto.
  - auto.
  - apply IH; assumption.
  - apply IH; assumption.
  - discriminate.
Qed.

End RunLaws.

Lemma app_one_one {A} (l : list A) x y :
  ((l ++ [x]) ++ [y] = l ++ [x; y])%list.
Proof. rewrite <- app_assoc. reflexivity. Qed.

(* ================================================================== *)
(** ** signOut *)

(** C1, counterexample: when the provider's sign-out reports an error, the
    session, identity and profile stay as they were and nothing navigates
    to the login view. *)
Lemma signOut_keeps_state_when_provider_fails :
  ~ signOut_clears_whatever_the_provider_answers.
Proof.
  intro H.
  specialize (H Store.t Store.env (signedIn aliceSession (Some aliceRow)) []
                (Store.mk [aliceRow] (Some alice) [] 0 (Some networkDown) None)).
  destruct H as [H _]. vm_compute in H. discriminate H.
Qed.

(** C1, amended: [signOut] issues the provider sign-out and nothing else.
    When the provider reports no error, session, identity and profile are
    cleared, a "Logged Out" notification is shown and the caller is
    navigated to the login view.  When the provider reports an error, the
    state is left as it was, an error notification is shown and there is no
    navigation. *)
Theorem signOut_follows_provider_outcome :
  forall (B : Type) (env : Env B) (l : Local) (tr : list Call) (b : B),
    let res := run env signOut l tr b in
    calls res = (tr ++ [AuthSignOut])%list
    /\ outcome res = Returned tt
    /\ match fst (respond env AuthSignOut b) with
       | None =>
           auth (final res) = signedOut
           /\ ui (final res)
              = (ui l ++ [Toast "Logged Out"
                                "You have been logged out successfully." Default;
                          Navigate "/auth/login"])%list
       | Some _ =>
           auth (final res) = auth l
           /\ ui (final res)
              = (ui l ++ [ConsoleError "Sign out error:";
                          Toast "Error" "Failed to log out. Please try again."
                                Destructive])%list
       end.
Proof.
  intros B env l tr b. simpl.
  split_match; simpl; rewrite app_one_one; auto.
Qed.

(* ================================================================== *)
(** ** The SIGNED_OUT event *)

(** C4: when a [SIGNED_OUT] event reaches the subscribed callback, the
    callback clears session, identity and profile (and the loading flag) in
    its own turn and ends there: it parks no new workflow, so it awaits no
    fetch, and the workflows already in flight - a profile fetch started by
    an earlier event among them - are neither waited for nor touched.  Run
    against any provider it issues no call at all. *)
Theorem signed_out_clears_synchronously :
  forall (ans : forall q : Query, Answer q) (s : option Session.t)
         (sys : System),
    deliver ans true SIGNED_OUT s sys
    = mkSystem
        (mkLocal signedOut (formLoading (local sys))
                 (ui (local sys) ++ [ConsoleLog "Auth state change:"])%list)
        (inflight sys)
    /\ forall (B : Type) (env : Env B) (l : Local) (tr : list Call) (b : B),
         let res := run env (onAuthStateChange true SIGNED_OUT s) l tr b in
         auth (final res) = signedOut /\ calls res = tr /\ world res = b
         /\ outcome res = Returned tt.
Proof.
  intros ans s sys. split.
  - unfold deliver, spawn. simpl. rewrite app_nil_r. reflexivity.
  - intros B env l tr b. simpl. auto.
Qed.

(** The hazard the callback does not guard against: a profile fetch that
    was in flight when [SIGNED_OUT] arrived still completes afterwards and
    stores the row it fetched next to the cleared session and identity. *)
Example stale_fetch_completes_after_signed_out :
  let ans := fun q => Store.answer q (healthy [aliceRow]) in
  let sys1 := deliver ans true SIGNED_IN (Some aliceSession)
                      (mkSystem blank []) in
  let sys2 := deliver ans true SIGNED_OUT None sys1 in
  auth (local sys2) = signedOut
  /\ match inflight sys2 with
     | [t] =>
         match resume_with_row t (mkQuery (Some aliceRow) None) with
         | Some p =>
             auth (local (spawn ans p (mkSystem (local sys2) [])))
             = mkAuth None None (Some aliceRow) false
         | None => False
         end
     | _ => False
     end.
Proof.
  simpl. split; reflexivity.
Qed.

(* ================================================================== *)
(** ** updateProfile *)

Lemma spread_merged_exactly updates p :
  merged_exactly updates p (Partial.spread p updates).
Proof.
  destruct updates as [i u d a bi c]; unfold merged_exactly; simpl.
  destruct i, u, d, a, bi, c; simpl; repeat split.
Qed.

(** C9: [updateProfile].  Without an authenticated identity it fails with
    "User not authenticated" and does nothing else.  With one, it issues
    exactly one call, the row update keyed by the identity id (no re-fetch),
    and returns the provider's error member.  When the provider reports no
    error, the in-memory profile has exactly the supplied fields replaced
    and every other field as before; session, identity and loading flag
    are untouched.  When the provider reports an error, the whole provider
    state is as before and that error is returned.  In particular
    [updateProfile({display_name: "X"})] changes [display_name] only. *)
Theorem updateProfile_contract :
  forall (B : Type) (env : Env B) (u : option User.t) (updates : Partial.t)
         (l : Local) (tr : list Call) (b : B),
    let res := run env (updateProfile u updates) l tr b in
    match u with
    | None =>
        res = mkResult (Returned (Some (Error "User not authenticated"))) l tr b
    | Some usr =>
        let c := ProfilesUpdate (User.id usr) updates in
        calls res = (tr ++ [c])%list
        /\ world res = snd (respond env c b)
        /\ outcome res = Returned (fst (respond env c b))
        /\ session (auth (final res)) = session (auth l)
        /\ user (auth (final res)) = user (auth l)
        /\ isLoading (auth (final res)) = isLoading (auth l)
        /\ match fst (respond env c b) with
           | None =>
               match profile (auth l) with
               | Some before =>
                   exists after,
                     profile (auth (final res)) = Some after
                     /\ merged_exactly updates before after
               | None => profile (auth (final res)) = None
               end
           | Some e =>
               profile (auth (final res)) = profile (auth l)
               /\ ui (final res)
                  = (ui l ++ [Toast "Update Failed" (message e) Destructive])%list
           end
    end
    /\ forall p : Profile.t,
         Partial.spread p
           (Partial.mk None None (Some (Some "X")) None None None)
         = Profile.mk (Profile.id p) (Profile.username p) (Some "X")
                      (Profile.avatar_url p) (Profile.bio p) (Profile.coins p).
Proof.
  intros B env u updates l tr b. split; [|reflexivity].
  destruct u as [usr|]; [|reflexivity].
  simpl.
  destruct (respond env (ProfilesUpdate (User.id usr) updates) b)
    as [[e|] b']; simpl.
  - repeat split; reflexivity.
  - repeat split; try reflexivity.
    destruct (profile (auth l)) as [before|]; simpl; [|reflexivity].
    eexists. split; [reflexivity|]. apply spread_merged_exactly.
Qed.

(* ================================================================== *)
(** ** signUp *)

(** C10: in [signUp] the error member of the username pre-check is never
    read.  Whenever that query yields no row - for whatever reason, a
    provider failure included - the next and last call is the provider
    sign-up, and what is notified and returned is decided by the answer to
    that sign-up alone; nothing reports the failed query. *)
Theorem signUp_discards_precheck_error :
  forall (B : Type) (env : Env B) (email password username : string)
         (l : Local) (tr : list Call) (b : B),
    data (fst (respond env (ProfilesSelectUsername username) b)) = None ->
    let b1 := snd (respond env (ProfilesSelectUsername username) b) in
    let c := AuthSignUp email password username username
                        (answer env WindowOrigin b1 ++ "/auth/callback") in
    let r := fst (respond env c b1) in
    let res := run env (signUp email password username) l tr b in
    calls res = (tr ++ [ProfilesSelectUsername username; c])%list
    /\ match signup_error r with
       | Some e =>
           outcome res = Returned (Some e)
           /\ ui (final res)
              = (ui l ++ [ConsoleError "Sign up error:";
                          Toast "Signup Failed" (message e) Destructive])%list
       | None =>
           if no_identities (signup_user r) then
             outcome res = Returned (Some (Error "Account exists"))
             /\ ui (final res)
                = (ui l ++ [Toast "Account Exists"
                   "An account with this email already exists. Please log in instead."
                   Destructive])%list
           else
             outcome res = Returned None
             /\ ui (final res)
                = (ui l ++ [Toast "Signup Successful"
                   "Please check your email for confirmation." Default])%list
       end.
Proof.
  intros B env email password username l tr b H.
  simpl.
  destruct (respond env (ProfilesSelectUsername username) b) as [q b1].
  simpl in *. rewrite H. simpl.
  destruct (respond env
              (AuthSignUp email password username username
                          (answer env WindowOrigin b1 ++ "/auth/callback")) b1)
    as [r b2].
  simpl. rewrite app_one_one.
  destruct (signup_error r) as [e|]; simpl.
  - rewrite app_one_one. auto.
  - destruct (no_identities (signup_user r)); simpl; auto.
Qed.

(** C10 at a concrete input: every table operation of the provider fails
    with a server error, and [signUp] still goes on to the provider
    sign-up. *)
Lemma signUp_discards_precheck_error_witness :
  let b := Store.mk [] None [] 0 None (Some networkDown) in
  calls (run Store.env (signUp "bob@example.com" "pw" "bob") blank [] b)
  = [ProfilesSelectUsername "bob";
     AuthSignUp "bob@example.com" "pw" "bob" "bob"
                "https://sakura.example/auth/callback"]
  /\ ui (final (run Store.env (signUp "bob@example.com" "pw" "bob") blank [] b))
     = [Toast "Signup Successful"
              "Please check your email for confirmation." Default].
Proof.
  intro b.
  pose proof (signUp_discards_precheck_error Store.env
                "bob@example.com" "pw" "bob" blank [] b eq_refl) as H.
  simpl in H. destruct H as [H1 [_ H2]]. split; assumption.
Defined.

(* ================================================================== *)
(** ** fetchProfile *)

Lemma verified_toasts_app evs evs' :
  verified_toasts (evs ++ evs') = (verified_toasts evs + verified_toasts evs')%nat.
Proof. unfold verified_toasts. rewrite filter_app, length_app. reflexivity. Qed.

Section FetchProfile.

Context {B : Type} (env : Env B).
Variables (userId : string) (l : Local) (tr : list Call) (b : B).

Let res := run env (fetchProfile userId) l tr b.

(** [fetchProfile] catches everything it throws. *)
Lemma fetchProfile_returns : outcome res = Returned tt.
Proof. subst res. unfold fetchProfile. crunch; reflexivity. Qed.

(** It writes the profile and the loading flag only. *)
Lemma fetchProfile_frame :
  session (auth (final res)) = session (auth l)
  /\ user (auth (final res)) = user (auth l)
  /\ isLoading (auth (final res)) = false
  /\ formLoading (final res) = formLoading l.
Proof. subst res. unfold fetchProfile. crunch; auto. Qed.

(** Its first call reads the row of [userId]; it reads it once, and it
    shows no "Account Verified!" notification. *)
Lemma fetchProfile_reads_row_once :
  exists rest evs,
    calls res = (tr ++ ProfilesSelectById userId :: rest)%list
    /\ existsb is_select_by_id rest = false
    /\ ui (final res) = (ui l ++ evs)%list
    /\ verified_toasts evs = 0%nat.
Proof.
  subst res. unfold fetchProfile. crunch;
    rewrite <- ?app_assoc; simpl;
    do 2 eexists; (split; [reflexivity|]);
    (split; [reflexivity|]);
    (split; [first [reflexivity | symmetry; apply app_nil_r]|]);
    reflexivity.
Qed.

(** When the row is there, it becomes the profile and nothing else is
    asked of the provider. *)
Lemma fetchProfile_found row :
  fst (respond env (ProfilesSelectById userId) b) = mkQuery (Some row) None ->
  profile (auth (final res)) = Some row
  /\ calls res = (tr ++ [ProfilesSelectById userId])%list
  /\ world res = snd (respond env (ProfilesSelectById userId) b)
  /\ ui (final res) = ui l.
Proof.
  subst res. unfold fetchProfile. simpl.
  destruct (respond env (ProfilesSelectById userId) b) as [q b1].
  simpl. intros ->. simpl. auto.
Qed.

End FetchProfile.

(* ================================================================== *)
(** ** The auth-event callback on events that carry a session *)

Section WithSession.

Context {B : Type} (env : Env B).
Variables (s : Session.t) (l : Local) (tr : list Call) (b : B).

Let uid := User.id (Session.user s).
Let fetched := run env (fetchProfile uid) (stored s l) tr b.

(** On [TOKEN_REFRESHED] the callback is one profile fetch between the
    two log lines. *)
Lemma token_refreshed_run :
  run env (onAuthStateChange true TOKEN_REFRESHED (Some s)) l tr b
  = mkResult (Returned tt)
      (apply (Emit (ConsoleLog "Auth token refreshed")) (final fetched))
      (calls fetched) (world fetched).
Proof.
  unfold onAuthStateChange. cbn -[fetchProfile apply].
  rewrite !run_bind. unfold andThen.
  fold uid. change (apply _ (apply _ (apply _ l))) with (stored s l).
  fold fetched.
  pose proof (fetchProfile_returns env uid (stored s l) tr b) as R.
  fold fetched in R. rewrite R. reflexivity.
Qed.

(** On [SIGNED_IN] with a confirmed email the callback is one profile
    fetch followed by the "Account Verified!" notification. *)
Lemma signed_in_confirmed_run :
  Js.truthy_opt (User.email_confirmed_at (Session.user s)) = true ->
  run env (onAuthStateChange true SIGNED_IN (Some s)) l tr b
  = mkResult (Returned tt)
      (apply (Emit (Toast "Account Verified!"
         "Your email has been successfully verified. Welcome to SAKURAZE!"
         Default)) (final fetched))
      (calls fetched) (world fetched).
Proof.
  intro H. unfold onAuthStateChange. cbn -[fetchProfile apply].
  rewrite H. rewrite !run_bind. unfold andThen.
  fold uid. change (apply _ (apply _ (apply _ l))) with (stored s l).
  fold fetched.
  pose proof (fetchProfile_returns env uid (stored s l) tr b) as R.
  fold fetched in R. rewrite R. reflexivity.
Qed.

(** Every [SIGNED_IN] with a confirmed email adds one "Account Verified!"
    notification, whatever happened before. *)
Lemma signed_in_confirmed_notifies :
  Js.truthy_opt (User.email_confirmed_at (Session.user s)) = true ->
  verified_toasts
    (ui (final (run env (onAuthStateChange true SIGNED_IN (Some s)) l tr b)))
  = S (verified_toasts (ui l)).
Proof.
  intro H. rewrite (signed_in_confirmed_run H). simpl.
  destruct (fetchProfile_reads_row_once env uid (stored s l) tr b)
    as (rest & evs & _ & _ & U & V).
  fold fetched in U. rewrite U. simpl.
  rewrite !verified_toasts_app, V.
  change (verified_toasts [ConsoleLog "Auth state change:"]) with 0%nat.
  change (verified_toasts [Toast "Account Verified!" _ _]) with 1%nat.
  lia.
Qed.

End WithSession.

(** C2, counterexample: with the row of the user changed on the provider's
    side since it was loaded, a [TOKEN_REFRESHED] event queries the
    [profiles] table and replaces the in-memory profile. *)
Lemma token_refreshed_refetches :
  ~ token_refreshed_only_stores_session.
Proof.
  intro H.
  specialize (H Store.t Store.env aliceSession
                (signedIn aliceSession (Some aliceRow)) []
                (healthy [aliceRowEdited])).
  destruct H as (_ & _ & H). vm_compute in H. discriminate H.
Qed.

(** C2, amended: on a [TOKEN_REFRESHED] event with a session the callback
    stores the session and its user and then loads the profile through
    [fetchProfile], as it does for every event other than [SIGNED_OUT];
    beyond that load it only writes two log lines.  So the provider is
    asked for the user's row, once; the profile afterwards is whatever the
    load leaves (the row itself when the provider returns it); no
    "Account Verified!" notification is shown. *)
Theorem token_refreshed_stores_session_and_reloads :
  forall (B : Type) (env : Env B) (s : Session.t) (l : Local)
         (tr : list Call) (b : B),
    let uid := User.id (Session.user s) in
    let res := run env (onAuthStateChange true TOKEN_REFRESHED (Some s)) l tr b in
    let fetched := run env (fetchProfile uid) (stored s l) tr b in
    session (auth (final res)) = Some s
    /\ user (auth (final res)) = Some (Session.user s)
    /\ profile (auth (final res)) = profile (auth (final fetched))
    /\ calls res = calls fetched
    /\ world res = world fetched
    /\ ui (final res)
       = (ui (final fetched) ++ [ConsoleLog "Auth token refreshed"])%list
    /\ (exists rest,
          calls res = (tr ++ ProfilesSelectById uid :: rest)%list
          /\ existsb is_select_by_id rest = false)
    /\ verified_toasts (ui (final res)) = verified_toasts (ui l)
    /\ forall row,
         fst (respond env (ProfilesSelectById uid) b) = mkQuery (Some row) None ->
         profile (auth (final res)) = Some row
         /\ calls res = (tr ++ [ProfilesSelectById uid])%list.
Proof.
  intros B env s l tr b uid res fetched.
  subst res. rewrite token_refreshed_run. fold uid. fold fetched. simpl.
  destruct (fetchProfile_frame env uid (stored s l) tr b) as (Fs & Fu & _ & _).
  destruct (fetchProfile_reads_row_once env uid (stored s l) tr b)
    as (rest & evs & C & N & U & V).
  fold fetched in Fs, Fu, C, U.
  repeat split; try assumption; try reflexivity.
  - exists rest. split; assumption.
  - rewrite U. simpl. rewrite !verified_toasts_app, V.
    change (verified_toasts [ConsoleLog "Auth state change:"]) with 0%nat.
    change (verified_toasts [ConsoleLog "Auth token refreshed"]) with 0%nat.
    lia.
  - eapply fetchProfile_found; exact H.
  - eapply fetchProfile_found; exact H.
Qed.

(* ================================================================== *)
(** ** The "Account Verified!" notification *)

(** C3, at the failing input: the same confirmed user signs in twice (two
    [SIGNED_IN] events in a row, profile row present) and the
    "Account Verified!" notification is shown at both events. *)
Theorem verified_toast_repeats_on_second_sign_in :
  let first :=
    run Store.env (onAuthStateChange true SIGNED_IN (Some aliceSession))
        blank [] (healthy [aliceRow]) in
  let second :=
    run Store.env (onAuthStateChange true SIGNED_IN (Some aliceSession))
        (final first) (calls first) (world first) in
  verified_toasts (ui (final first)) = 1%nat
  /\ verified_toasts (ui (final second)) = 2%nat.
Proof.
  vm_compute. split; reflexivity.
Qed.

(* ================================================================== *)
(** ** Creating the missing profile *)

Lemma truthy_not_empty s : Js.truthy s = true -> s <> EmptyString.
Proof.
  unfold Js.truthy. intros H E. subst s. discriminate H.
Qed.

Lemma expectedUsername_not_empty u now :
  expectedUsername u now <> EmptyString.
Proof.
  unfold expectedUsername.
  destruct (User.email u) as [e|]; [|discriminate].
  destruct (Js.truthy (hd EmptyString (Js.split "@" e))) eqn:T.
  - apply truthy_not_empty; assumption.
  - discriminate.
Qed.

Lemma run_defaultUsername B (env : Env B) u l tr b :
  run env (defaultUsername u) l tr b
  = mkResult (Returned (expectedUsername u (answer env DateNow b))) l tr b.
Proof.
  unfold defaultUsername, expectedUsername.
  destruct (User.email u) as [e|]; [|reflexivity].
  destruct (Js.truthy (hd EmptyString (Js.split "@" e))); reflexivity.
Qed.

(** C5: loading the profile of an identity that has no row.  On a provider
    that works (its table operations do not fail and it knows the current
    user), [fetchProfile] gets the not-found signal and inserts one row:
    the table afterwards is the old table plus that row, which has the
    identity's id, [coins = 0] and a non-empty username (the email's local
    part, or [user_<timestamp>] when there is no email or no local part);
    the row is adopted as the current profile.  A second load finds exactly
    that row, leaves the table as it is - no second insert - and has the
    same row as current profile. *)
Theorem fetchProfile_creates_missing_profile_once :
  forall (b : Store.t) (u : User.t) (uid : string) (l : Local)
         (tr : list Call),
    Store.tableError b = None ->
    Store.current_user b = Some u ->
    filter (Store.has_id uid) (Store.rows b) = [] ->
    let row := Profile.mk uid (expectedUsername u (Store.clock b))
                          (or_null (User.display_name u)) None None 0 in
    let first := run Store.env (fetchProfile uid) l tr b in
    let again :=
      run Store.env (fetchProfile uid) (final first) (calls first)
          (world first) in
    Profile.username row <> EmptyString
    /\ Profile.coins row = 0
    /\ Store.rows (world first) = (Store.rows b ++ [row])%list
    /\ filter (Store.has_id uid) (Store.rows (world first)) = [row]
    /\ calls first
       = (tr ++ [ProfilesSelectById uid; AuthGetUser; ProfilesInsert row])%list
    /\ profile (auth (final first)) = Some row
    /\ world again = world first
    /\ calls again = (calls first ++ [ProfilesSelectById uid])%list
    /\ profile (auth (final again)) = Some row.
Proof.
  intros b u uid l tr Herr Huser Hnone row first again.
  assert (Hid : Store.has_id uid row = true)
    by (unfold Store.has_id; simpl; apply String.eqb_refl).
  assert (Hfirst :
    first = mkResult (Returned tt)
              (apply (SetIsLoading false)
                 (apply (Emit (Toast "Profile Created"
                    "Your profile has been created successfully." Default))
                    (apply (SetProfile (Some row))
                       (apply (SetIsLoading true) l))))
              (tr ++ [ProfilesSelectById uid; AuthGetUser; ProfilesInsert row])%list
              (Store.set_rows (Store.rows b ++ [row]) b)).
  { subst first. unfold fetchProfile.
    rewrite run_finally, run_try_catch. cbn -[defaultUsername apply].
    unfold Store.query. rewrite Herr, Hnone. cbn -[defaultUsername apply].
    rewrite Huser. cbn -[defaultUsername apply].
    rewrite run_bind, run_defaultUsername. unfold andThen.
    cbn -[apply]. rewrite Herr. cbn -[apply].
    rewrite <- !app_assoc. reflexivity. }
  assert (Hrows :
    filter (Store.has_id uid) (Store.rows b ++ [row]) = [row]).
  { rewrite filter_app, Hnone. simpl. rewrite Hid. reflexivity. }
  subst again. rewrite Hfirst. cbn -[apply].
  repeat split.
  - apply expectedUsername_not_empty.
  - exact Hrows.
  - unfold fetchProfile. rewrite run_finally, run_try_catch. cbn -[apply].
    unfold Store.query. cbn -[apply]. rewrite Herr, Hrows. reflexivity.
  - unfold fetchProfile. rewrite run_finally, run_try_catch. cbn -[apply].
    unfold Store.query. cbn -[apply]. rewrite Herr, Hrows. reflexivity.
  - unfold fetchProfile. rewrite run_finally, run_try_catch. cbn -[apply].
    unfold Store.query. cbn -[apply]. rewrite Herr, Hrows. reflexivity.
Qed.

(* ================================================================== *)
(** ** Username validation *)

Lemma rev_onto_empty s acc :
  Js.rev_onto s acc = EmptyString -> s = EmptyString /\ acc = EmptyString.
Proof.
  revert acc. induction s as [|c s IH]; intros acc H; [split; auto|].
  simpl in H. apply IH in H. destruct H as [_ H]. discriminate H.
Qed.

Lemma all_chars_rev_onto f s acc :
  Js.all_chars f (Js.rev_onto s acc) = (Js.all_chars f s && Js.all_chars f acc)%bool.
Proof.
  revert acc. induction s as [|c s IH]; intros acc; simpl; [reflexivity|].
  rewrite IH. simpl.
  destruct (f c), (Js.all_chars f s), (Js.all_chars f acc); reflexivity.
Qed.

Lemma trimStart_empty s :
  Js.trimStart s = EmptyString <-> Js.all_chars Js.is_space s = true.
Proof.
  induction s as [|c s IH]; simpl; [tauto|].
  destruct (Js.is_space c); simpl; [exact IH|].
  split; discriminate.
Qed.

(** [trim] leaves nothing exactly when the string is empty or consists of
    white space only. *)
Lemma trim_empty s :
  Js.trim s = EmptyString <-> Js.all_chars Js.is_space s = true.
Proof.
  unfold Js.trim, Js.trimEnd, Js.rev. split.
  - intro H. apply rev_onto_empty in H. destruct H as [H _].
    apply trimStart_empty in H. rewrite all_chars_rev_onto in H.
    simpl in H. rewrite andb_true_r in H.
    destruct (Js.trimStart s) as [|c t] eqn:T.
    + apply trimStart_empty; assumption.
    + exfalso.
      assert (Js.is_space c = false) as Hc.
      { clear H. revert c t T. induction s as [|d s IH]; intros c t T.
        - discriminate T.
        - simpl in T. destruct (Js.is_space d) eqn:D.
          + eapply IH; eassumption.
          + injection T as -> _. assumption. }
      simpl in H. rewrite Hc in H. discriminate H.
  - intro H. apply trimStart_empty in H. rewrite H. reflexivity.
Qed.

(** C6, counterexample: a username of two spaces is not empty, so the
    checks in the order stated would reject it as too short; the form
    rejects it with "Username is required", because its first check looks
    at the trimmed username. *)
Lemma blank_username_is_reported_as_required :
  ~ usernameChecks_are_as_specified.
Proof.
  intro H. specialize (H "  "). vm_compute in H. discriminate H.
Qed.

Lemma truthy_trim s :
  Js.truthy (Js.trim s) = negb (Js.all_chars Js.is_space s).
Proof.
  unfold Js.truthy.
  destruct (Js.all_chars Js.is_space s) eqn:E.
  - apply trim_empty in E. rewrite E. reflexivity.
  - destruct (String.eqb_spec (Js.trim s) EmptyString) as [T|T]; [|reflexivity].
    apply trim_empty in T. congruence.
Qed.

Lemma len_pos_truthy s : 3 <= Js.len s -> Js.truthy s = true.
Proof.
  destruct s; unfold Js.len; simpl; [lia|reflexivity].
Qed.

Lemma usernameChecks_checked s : checked s (usernameChecks s).
Proof.
  unfold usernameChecks, throw_if. rewrite truthy_trim, negb_involutive.
  destruct (Js.all_chars Js.is_space s) eqn:Sp; simpl.
  { apply rejected_blank; assumption. }
  destruct (Z.ltb_spec (Js.len s) 3) as [L3|L3]; simpl.
  { apply rejected_short; assumption. }
  destruct (Z.ltb_spec 30 (Js.len s)) as [L30|L30]; simpl.
  { apply rejected_long; assumption. }
  unfold Js.test_word_plus. rewrite (len_pos_truthy s L3). simpl.
  destruct (Js.all_chars Js.word_char s) eqn:W; simpl.
  - apply accepted; [lia|assumption].
  - apply rejected_charset; [assumption|lia|assumption].
Qed.

(** A failed check ends the submission at once: one error notification
    with the message of the check, no call to the provider. *)
Lemma handleSubmit_reports_failed_check B (env : Env B) u p fd file l tr b e :
  usernameChecks (form_username fd) = Throw e ->
  run env (handleSubmit (Some u) p fd file) l tr b
  = mkResult (Returned tt)
      (mkLocal (auth l) false
         (ui l ++ [PreventDefault;
                   Toast "Error"
                     (Js.or_else (Some (message e)) "Failed to update profile")
                     Destructive])%list)
      tr b.
Proof.
  intro H. unfold handleSubmit. cbn -[usernameChecks].
  rewrite H. simpl. rewrite app_one_one. reflexivity.
Qed.

(** C6, amended: the submit checks the username in this order, stopping at
    the first failure, each failure with its own message: not blank (empty
    or white space only, as the check looks at the trimmed username),
    length at least 3, length at most 30, characters from [A-Za-z0-9_]
    only.  A failed check is reported as the one error notification of the
    submission and nothing is asked of the provider.  On every username
    that is empty or not blank the checks are those of the stated list.
    "ab", a name of 31 characters and "bad name!" are rejected with the
    second, third and fourth message; "valid_99" passes. *)
Theorem usernameChecks_order_and_examples :
  (forall s, checked s (usernameChecks s))
  /\ (forall s,
        s = EmptyString \/ Js.all_chars Js.is_space s = false ->
        usernameChecks s = usernameChecks_as_specified s)
  /\ NoDup [requiredMsg; tooShortMsg; tooLongMsg; charsetMsg]
  /\ (forall B (env : Env B) u p fd file l tr b e,
        usernameChecks (form_username fd) = Throw e ->
        let res := run env (handleSubmit (Some u) p fd file) l tr b in
        calls res = tr
        /\ ui (final res)
           = (ui l ++ [PreventDefault;
                       Toast "Error"
                         (Js.or_else (Some (message e)) "Failed to update profile")
                         Destructive])%list)
  /\ usernameChecks "ab" = Throw (Error tooShortMsg)
  /\ usernameChecks "aaaaaaaaaaaaaaaaaaaaaaaaaaaaaaa" = Throw (Error tooLongMsg)
  /\ usernameChecks "bad name!" = Throw (Error charsetMsg)
  /\ usernameChecks "valid_99" = Ret tt.
Proof.
  split; [exact usernameChecks_checked|].
  split.
  { intros s [->|Sp]; [reflexivity|].
    unfold usernameChecks, usernameChecks_as_specified, throw_if.
    rewrite truthy_trim, Sp. simpl.
    destruct s as [|c s]; [discriminate Sp|]. simpl.
    destruct (Js.len (String c s) <? 3); [reflexivity|]. simpl.
    destruct (30 <? Js.len (String c s)); reflexivity. }
  split.
  { repeat constructor; simpl; intuition discriminate. }
  split.
  { intros B env u p fd file l tr b e H res. subst res.
    rewrite (handleSubmit_reports_failed_check env u p fd file l tr b H).
    split; reflexivity. }
  repeat split; reflexivity.
Qed.

(* ================================================================== *)
(** ** Submitting the form *)

(** From the avatar step on, no uniqueness query is issued. *)
Lemma commitPhase_asks_no_uniqueness B (env : Env B) user profile fd file
  l tr b :
  exists new,
    calls (run env (commitPhase user profile fd file) l tr b)
    = (tr ++ new)%list
    /\ existsb is_uniqueness_query new = false.
Proof.
  unfold commitPhase, commitSubmission, avatarStep, uploadAvatar,
    updateProfile, reportFailure.
  crunch; new_calls.
Qed.

(** The commit once the avatar step has yielded [a] and the provider
    accepts the row update: one update call, the two success
    notifications, the callback, the dialog closed, the fields merged. *)
Lemma commitPhase_succeeds B (env : Env B) u p fd file l tr b a :
  let av := run env (avatarStep (Some u) p file) l tr b in
  let c := ProfilesUpdate (User.id u) (submitted fd a) in
  outcome av = Returned a ->
  fst (respond env c (world av)) = None ->
  let res := run env (commitPhase (Some u) p fd file) l tr b in
  outcome res = Returned tt
  /\ calls res = (calls av ++ [c])%list
  /\ ui (final res)
     = (ui (final av)
        ++ [Toast "Profile Updated"
                  "Your profile has been updated successfully." Default;
            Toast "Profile Updated"
                  "Your profile has been updated successfully!" Default;
            OnProfileUpdate;
            OnOpenChange false])%list
  /\ profile (auth (final res))
     = merge (submitted fd a) (profile (auth (final av)))
  /\ formLoading (final res) = false.
Proof.
  intros av c Hav Hupd res. subst res.
  unfold commitPhase, commitSubmission.
  rewrite run_finally, run_try_catch, run_bind. fold av.
  unfold andThen. rewrite Hav. fold c.
  simpl. fold c.
  destruct (respond env c (world av)) as [r b2]. simpl in Hupd. subst r.
  simpl. rewrite <- !app_assoc. simpl. repeat split; reflexivity.
Qed.

(** C7: a submission whose username passes the checks and equals the
    username of the current profile issues no uniqueness query, whatever
    the provider and whatever else is submitted: it goes from the checks
    straight to the avatar step and the commit.  When the rest is in order
    - the avatar step yields a value (the current avatar when no file is
    attached) and the provider accepts the row update - the submission
    succeeds: the update is the only call after the avatar step, success is
    notified, the callback runs and the dialog is closed. *)
Theorem unchanged_username_skips_uniqueness_query :
  forall (B : Type) (env : Env B) (u : User.t) (p : Profile.t)
         (fd : FormData) (file : option File.t) (l : Local)
         (tr : list Call) (b : B),
    usernameChecks (form_username fd) = Ret tt ->
    form_username fd = Profile.username p ->
    let res := run env (handleSubmit (Some u) (Some p) fd file) l tr b in
    let av := run env (avatarStep (Some u) (Some p) file) (submitting l) tr b in
    res = run env (commitPhase (Some u) (Some p) fd file) (submitting l) tr b
    /\ (exists new,
          calls res = (tr ++ new)%list
          /\ existsb is_uniqueness_query new = false)
    /\ (file = None -> av = mkResult (Returned (Profile.avatar_url p))
                                     (submitting l) tr b)
    /\ forall a,
         outcome av = Returned a ->
         fst (respond env (ProfilesUpdate (User.id u) (submitted fd a))
                      (world av)) = None ->
         outcome res = Returned tt
         /\ calls res
            = (calls av ++ [ProfilesUpdate (User.id u) (submitted fd a)])%list
         /\ ui (final res)
            = (ui (final av)
               ++ [Toast "Profile Updated"
                         "Your profile has been updated successfully." Default;
                   Toast "Profile Updated"
                         "Your profile has been updated successfully!" Default;
                   OnProfileUpdate;
                   OnOpenChange false])%list
         /\ profile (auth (final res))
            = merge (submitted fd a) (profile (auth (final av)))
         /\ formLoading (final res) = false.
Proof.
  intros B env u p fd file l tr b Hvalid Hsame res av.
  assert (E : res = run env (commitPhase (Some u) (Some p) fd file)
                        (submitting l) tr b).
  { subst res. unfold handleSubmit, commitPhase, submitting.
    cbn -[usernameChecks commitSubmission apply].
    rewrite Hvalid. unfold uniquenessCheck, username_changed.
    rewrite Hsame, String.eqb_refl. reflexivity. }
  split; [exact E|]. split.
  { rewrite E. apply commitPhase_asks_no_uniqueness. }
  split.
  { intros ->. reflexivity. }
  intros a Hav Hupd. rewrite E.
  eapply commitPhase_succeeds; eassumption.
Qed.

(** C7 at a concrete input: alice keeps her username and edits the other
    fields; the only call is the row update and the dialog is closed. *)
Lemma unchanged_username_skips_uniqueness_query_witness :
  let res := run Store.env (handleSubmit (Some alice) (Some aliceRow)
                                         aliceForm None)
                 (signedIn aliceSession (Some aliceRow)) []
                 (healthy [aliceRow]) in
  calls res = [ProfilesUpdate "u1" (submitted aliceForm None)]
  /\ outcome res = Returned tt.
Proof.
  intro res.
  destruct (unchanged_username_skips_uniqueness_query Store.env alice aliceRow
              aliceForm None (signedIn aliceSession (Some aliceRow)) []
              (healthy [aliceRow]) eq_refl eq_refl)
    as (_ & _ & _ & H).
  destruct (H None eq_refl eq_refl) as (H1 & H2 & _).
  split; assumption.
Defined.

(** What the uniqueness check does with each answer of the provider.  A
    submission whose username passes the checks and differs from the
    current profile's asks the provider for a row of another identity with
    that username before anything else.  If the query yields a row, the
    submission ends there with "Username is already taken": the query is
    the only call, so no row is updated and nothing is uploaded.  If it
    yields no row and no error, or the "no rows" error PGRST116, the
    submission goes on with the avatar step and the commit as if nothing
    had been objected.  If it yields any other error, the submission ends
    there and reports that error. *)
Theorem changed_username_is_checked_for_conflict :
  forall (B : Type) (env : Env B) (u : User.t) (p : option Profile.t)
         (fd : FormData) (file : option File.t) (l : Local)
         (tr : list Call) (b : B),
    usernameChecks (form_username fd) = Ret tt ->
    username_changed fd p = true ->
    let q := ProfilesSelectUsernameOther (User.id u) (form_username fd) in
    let r := fst (respond env q b) in
    let b1 := snd (respond env q b) in
    let res := run env (handleSubmit (Some u) p fd file) l tr b in
    let stopped msg :=
      res = mkResult (Returned tt)
              (mkLocal (auth l) false
                 (ui l ++ [PreventDefault; Toast "Error" msg Destructive])%list)
              (tr ++ [q])%list b1 in
    let goes_on :=
      res = run env (commitPhase (Some u) p fd file) (submitting l)
                (tr ++ [q])%list b1 in
    match data r, error r with
    | Some _, _ => stopped "Username is already taken"
    | None, None => goes_on
    | None, Some e =>
        if is_PGRST116 e then goes_on
        else stopped (Js.or_else (Some (message e)) "Failed to update profile")
    end.
Proof.
  intros B env u p fd file l tr b Hvalid Hchanged q r b1 res stopped goes_on.
  subst stopped goes_on res. unfold handleSubmit, commitPhase, submitting.
  cbn -[usernameChecks commitSubmission apply].
  rewrite Hvalid. unfold uniquenessCheck. rewrite Hchanged.
  cbn -[commitSubmission apply]. fold q.
  subst r b1. destruct (respond env q b) as [r b1]. simpl fst. simpl snd.
  destruct (data r) as [taken|]; [|destruct (error r) as [e|]].
  - simpl. rewrite app_one_one. reflexivity.
  - destruct (is_PGRST116 e); simpl.
    + reflexivity.
    + rewrite app_one_one. reflexivity.
  - reflexivity.
Qed.

(** At a concrete input with one other holder of the name: alice asks for
    the username of bob. *)
Lemma changed_username_is_checked_for_conflict_witness :
  let res := run Store.env (handleSubmit (Some alice) (Some aliceRow)
                                         (mkForm "bob" "Alice" "hello") None)
                 (signedIn aliceSession (Some aliceRow)) []
                 (healthy [aliceRow; bobRow]) in
  calls res = [ProfilesSelectUsernameOther "u1" "bob"]
  /\ ui (final res)
     = [PreventDefault; Toast "Error" "Username is already taken" Destructive]
  /\ Store.rows (world res) = [aliceRow; bobRow].
Proof.
  intro res.
  assert (H : res = mkResult (Returned tt)
                      (mkLocal (auth (signedIn aliceSession (Some aliceRow)))
                         false
                         [PreventDefault;
                          Toast "Error" "Username is already taken" Destructive])
                      [ProfilesSelectUsernameOther "u1" "bob"]
                      (healthy [aliceRow; bobRow]))
    by exact (changed_username_is_checked_for_conflict Store.env alice
                (Some aliceRow) (mkForm "bob" "Alice" "hello") None
                (signedIn aliceSession (Some aliceRow)) []
                (healthy [aliceRow; bobRow]) eq_refl eq_refl).
  rewrite H. repeat split; reflexivity.
Defined.

(** On the reference provider, [.single()] answers the "no rows" signal
    also when several rows match: a username held by two or more other
    identities passes the uniqueness check, and the submission goes on to
    the avatar step and the commit. *)
Lemma several_holders_pass_the_check :
  forall (b : Store.t) (u : User.t) (p : option Profile.t) (fd : FormData)
         (file : option File.t) (l : Local) (tr : list Call),
    Store.tableError b = None ->
    usernameChecks (form_username fd) = Ret tt ->
    username_changed fd p = true ->
    (2 <= List.length
            (filter (fun r => negb (Store.has_id (User.id u) r)
                              && Store.has_username (form_username fd) r)%bool
                    (Store.rows b)))%nat ->
    run Store.env (handleSubmit (Some u) p fd file) l tr b
    = run Store.env (commitPhase (Some u) p fd file) (submitting l)
          (tr ++ [ProfilesSelectUsernameOther (User.id u) (form_username fd)])%list
          b.
Proof.
  intros b u p fd file l tr Herr Hvalid Hchanged Hmany.
  pose proof (changed_username_is_checked_for_conflict Store.env u p fd file
                l tr b Hvalid Hchanged) as H.
  cbv zeta in H. simpl in H. unfold Store.query in H. rewrite Herr in H.
  destruct (filter (fun r => negb (Store.has_id (User.id u) r)
                             && Store.has_username (form_username fd) r)%bool
                   (Store.rows b)) as [|r1 [|r2 rest]];
    simpl in Hmany; try lia.
  simpl in H. exact H.
Qed.

(** C8, at the failing input: two other identities already hold the
    username "bob" and alice asks for it.  The uniqueness query answers
    the "no rows" signal PGRST116, the submission is not turned down: the
    row of alice is updated, success is notified, the dialog is closed,
    and three rows hold the username afterwards. *)
Theorem conflict_missed_when_two_others_hold_the_name :
  let b := healthy [aliceRow; bobRow; bobTwin] in
  let fd := mkForm "bob" "Alice" "hello" in
  let res := run Store.env (handleSubmit (Some alice) (Some aliceRow) fd None)
                 (signedIn aliceSession (Some aliceRow)) [] b in
  fst (Store.respond (ProfilesSelectUsernameOther "u1" "bob") b)
  = mkQuery None (Some Store.noRows)
  /\ calls res
     = [ProfilesSelectUsernameOther "u1" "bob";
        ProfilesUpdate "u1" (submitted fd None)]
  /\ ui (final res)
     = [PreventDefault;
        Toast "Profile Updated"
              "Your profile has been updated successfully." Default;
        Toast "Profile Updated"
              "Your profile has been updated successfully!" Default;
        OnProfileUpdate;
        OnOpenChange false]
  /\ map Profile.username (Store.rows (world res)) = ["bob"; "bob"; "bob"]
  /\ map Profile.id (Store.rows (world res)) = ["u1"; "u2"; "u5"].
Proof.
  vm_compute. repeat split.
Qed.

(** C5 at a concrete input: alice signs in for the first time; bob already
    has a row. *)
Lemma fetchProfile_creates_missing_profile_once_witness :
  let row := Profile.mk "u1" "alice" None None None 0 in
  let first := run Store.env (fetchProfile "u1") blank [] (healthy [bobRow]) in
  Store.rows (world first) = [bobRow; row]
  /\ profile (auth (final first)) = Some row
  /\ world (run Store.env (fetchProfile "u1") (final first) (calls first)
                (world first)) = world first.
Proof.
  intros row first.
  destruct (@fetchProfile_creates_missing_profile_once (healthy [bobRow]) alice
              "u1" blank [] eq_refl eq_refl eq_refl)
    as (_ & _ & H1 & _ & _ & H2 & H3 & _).
  repeat split; assumption.
Defined.

(* ================================================================== *)
(** ** uploadAvatar *)

Lemma run_throw_if B (env : Env B) (cond : bool) msg (k : Prog (option string))
  l tr b :
  run env (throw_if cond msg ;; k) l tr b
  = if cond then mkResult (Thrown (Error msg)) l tr b else run env k l tr b.
Proof. destruct cond; reflexivity. Qed.

(** X1: a file that fails a validation is turned down before storage is
    touched. *)
Theorem uploadAvatar_rejects_before_storage :
  forall (B : Type) (env : Env B) (u : option User.t) (p : option Profile.t)
         (f : File.t) (l : Local) (tr : list Call) (b : B),
    acceptable f = false ->
    exists msg,
      In msg avatarMessages
      /\ run env (uploadAvatar u p f) l tr b
         = mkResult (Returned None)
             (mkLocal (auth l) (formLoading l)
                (ui l ++ [Toast "Avatar Upload Failed" msg Destructive])%list)
             tr b.
Proof.
  intros B env u p f l tr b H.
  unfold acceptable, fileExtension, maxAvatarSize in H.
  unfold uploadAvatar. rewrite run_try_catch, !run_throw_if.
  destruct (Js.startsWith (File.type f) "image/"); simpl in *.
  2:{ eexists. split; [left; reflexivity|reflexivity]. }
  change (2 * 1024 * 1024) with 2097152 in *.
  destruct (Z.ltb_spec 2097152 (File.size f)) as [S|S]; simpl.
  { eexists. split; [right; left; reflexivity|reflexivity]. }
  destruct (Z.leb_spec (File.size f) 2097152) as [S'|S'];
    [|lia]. simpl in H.
  destruct (Js.pop (Js.split "." (File.name f))) as [piece|]; simpl in *.
  2:{ eexists. split; [right; right; left; reflexivity|reflexivity]. }
  rewrite run_throw_if.
  destruct (Js.truthy (Js.toLowerCase piece)); simpl in *.
  2:{ eexists. split; [right; right; left; reflexivity|reflexivity]. }
  unfold imageExtensions in H. simpl in H. rewrite H. simpl.
  eexists. split; [right; right; left; reflexivity|reflexivity].
Qed.

Lemma uploadAvatar_rejects_before_storage_witness :
  acceptable notes = false
  /\ exists msg,
       In msg avatarMessages
       /\ run Store.env (uploadAvatar (Some alice) (Some aliceWithAvatar) notes)
              blank [] (healthy [aliceWithAvatar])
          = mkResult (Returned None)
              (mkLocal (auth blank) (formLoading blank)
                 (ui blank ++ [Toast "Avatar Upload Failed" msg Destructive])%list)
              [] (healthy [aliceWithAvatar]).
Proof.
  split; [reflexivity|].
  apply uploadAvatar_rejects_before_storage. reflexivity.
Defined.

Lemma acceptable_true f :
  acceptable f = true ->
  Js.startsWith (File.type f) "image/" = true
  /\ (2 * 1024 * 1024 <? File.size f) = false
  /\ exists piece,
       Js.pop (Js.split "." (File.name f)) = Some piece
       /\ Js.truthy (Js.toLowerCase piece) = true
       /\ Js.includes imageExtensions (Js.toLowerCase piece) = true.
Proof.
  unfold acceptable, fileExtension, maxAvatarSize. intro H.
  apply andb_prop in H. destruct H as [H H3].
  apply andb_prop in H. destruct H as [H1 H2].
  split; [assumption|]. split.
  { apply Z.leb_le in H2. apply Z.ltb_ge. exact H2. }
  destruct (Js.pop (Js.split "." (File.name f))) as [piece|];
    [|discriminate H3].
  simpl in H3. apply andb_prop in H3. destruct H3 as [H3 H4].
  exists piece. auto.
Qed.

(** What [uploadAvatar] does with a file that passes the validations. *)
Lemma uploadAvatar_accepted_run B (env : Env B) u p f l tr b :
  acceptable f = true ->
  exists ext,
    fileExtension f = Some ext
    /\ let removal :=
         match oldAsset p with Some o => [StorageRemove o] | None => [] end in
       let b1 :=
         match oldAsset p with
         | Some o => snd (respond env (StorageRemove o) b)
         | None => b
         end in
       let name := avatarFileName u (answer env DateNow b1) ext in
       let b2 := snd (respond env (StorageUpload name f) b1) in
       run env (uploadAvatar u p f) l tr b
       = match fst (respond env (StorageUpload name f) b1) with
         | None =>
             mkResult (Returned (Some (answer env (GetPublicUrl name) b2)))
                      l (tr ++ removal ++ [StorageUpload name f])%list b2
         | Some e =>
             mkResult (Returned None)
               (mkLocal (auth l) (formLoading l)
                  (ui l ++ [Toast "Avatar Upload Failed"
                              (Js.or_else (Some (message e))
                                          "Failed to upload avatar")
                              Destructive])%list)
               (tr ++ removal ++ [StorageUpload name f])%list b2
         end.
Proof.
  intro H. apply acceptable_true in H.
  destruct H as (H1 & H2 & piece & H3 & H4 & H5).
  exists (Js.toLowerCase piece). split.
  { unfold fileExtension. rewrite H3. reflexivity. }
  unfold uploadAvatar, avatarFileName, oldAsset.
  rewrite run_try_catch, !run_throw_if. rewrite H1, H2, H3. simpl negb.
  cbv iota. simpl option_map. cbv iota. rewrite run_throw_if.
  unfold imageExtensions, Js.includes in H5. simpl in H5.
  rewrite H4, H5. simpl negb. simpl orb.
  cbv iota.
  destruct p as [pr|]; simpl;
    [destruct (Profile.avatar_url pr) as [url|]; simpl;
     [destruct (Js.truthy url); simpl;
      [destruct (Js.pop (Js.split "/" url)) as [old|]; simpl;
       [destruct (Js.truthy old); simpl|]|]|]|];
    match goal with
    | |- context [respond env (StorageUpload ?n f) ?w] =>
        destruct (respond env (StorageUpload n f) w) as [[e|] b2]
    end;
    simpl; rewrite <- ?app_assoc; reflexivity.
Qed.

(** X2: for a file that passes the validations, the stored asset of the
    current avatar (if any) is removed first and the upload follows
    whatever the removal answered; the new asset is named after the user
    id, the clock as read once the removal has resolved, and the
    lower-cased extension.  These are the only calls. *)
Theorem uploadAvatar_removes_old_asset_then_uploads :
  forall (B : Type) (env : Env B) (u : option User.t) (p : option Profile.t)
         (f : File.t) (l : Local) (tr : list Call) (b : B),
    acceptable f = true ->
    exists ext,
      fileExtension f = Some ext
      /\ let w :=
           match oldAsset p with
           | Some o => snd (respond env (StorageRemove o) b)
           | None => b
           end in
         calls (run env (uploadAvatar u p f) l tr b)
         = (tr
            ++ match oldAsset p with
               | Some o => [StorageRemove o]
               | None => []
               end
            ++ [StorageUpload
                  (avatarFileName u (answer env DateNow w) ext) f])%list.
Proof.
  intros B env u p f l tr b H.
  destruct (uploadAvatar_accepted_run env u p f l tr b H) as (ext & E & R).
  exists ext. split; [exact E|].
  cbv zeta in R. cbv zeta. rewrite R.
  match goal with
  | |- context [respond env (StorageUpload ?n f) ?w] =>
      destruct (respond env (StorageUpload n f) w) as [[e|] b2]
  end; reflexivity.
Qed.

Lemma uploadAvatar_removes_old_asset_then_uploads_witness :
  acceptable photo = true
  /\ calls (run Store.env
              (uploadAvatar (Some alice) (Some aliceWithAvatar) photo)
              blank [] (healthy [aliceWithAvatar]))
     = [StorageRemove "u1-1.png";
        StorageUpload "u1-1700000000000.png" photo].
Proof.
  split; [reflexivity|].
  destruct (uploadAvatar_removes_old_asset_then_uploads Store.env (Some alice)
              (Some aliceWithAvatar) photo blank []
              (healthy [aliceWithAvatar]) eq_refl) as (ext & E & H).
  injection E as <-. cbv zeta in H. exact H.
Defined.

(** X3: for a file that passes the validations, [uploadAvatar] never
    throws: it returns the public URL of the new asset when the provider
    accepts the upload, and [null] with one "Avatar Upload Failed"
    notification carrying the provider's message when it does not.  The
    provider state of the page is not written in either case. *)
Theorem uploadAvatar_result_follows_upload :
  forall (B : Type) (env : Env B) (u : option User.t) (p : option Profile.t)
         (f : File.t) (l : Local) (tr : list Call) (b : B),
    acceptable f = true ->
    exists ext,
      fileExtension f = Some ext
      /\ let w :=
           match oldAsset p with
           | Some o => snd (respond env (StorageRemove o) b)
           | None => b
           end in
         let name := avatarFileName u (answer env DateNow w) ext in
         let res := run env (uploadAvatar u p f) l tr b in
         auth (final res) = auth l
         /\ match fst (respond env (StorageUpload name f) w) with
            | None =>
                outcome res
                = Returned (Some (answer env (GetPublicUrl name) (world res)))
                /\ ui (final res) = ui l
            | Some e =>
                outcome res = Returned None
                /\ ui (final res)
                   = (ui l ++ [Toast "Avatar Upload Failed"
                                 (Js.or_else (Some (message e))
                                             "Failed to upload avatar")
                                 Destructive])%list
            end.
Proof.
  intros B env u p f l tr b H.
  destruct (uploadAvatar_accepted_run env u p f l tr b H) as (ext & E & R).
  exists ext. split; [exact E|].
  cbv zeta in R. cbv zeta. rewrite R. clear R.
  match goal with
  | |- context [respond env (StorageUpload ?n f) ?w] =>
      destruct (respond env (StorageUpload n f) w) as [[e|] b2]
  end; simpl; repeat split; reflexivity.
Qed.

Lemma uploadAvatar_result_follows_upload_witness :
  acceptable photo = true
  /\ outcome (run Store.env
                (uploadAvatar (Some alice) (Some aliceWithAvatar) photo)
                blank [] (healthy [aliceWithAvatar]))
     = Returned (Some (Store.publicUrl "u1-1700000000000.png")).
Proof.
  split; [reflexivity|].
  destruct (uploadAvatar_result_follows_upload Store.env (Some alice)
              (Some aliceWithAvatar) photo blank []
              (healthy [aliceWithAvatar]) eq_refl) as (ext & E & H).
  injection E as <-. cbv zeta in H. destruct H as [_ H].
  exact (proj1 H).
Defined.

(* ================================================================== *)
(** ** The extension of a file name *)

Lemma split_not_nil sep s : Js.split sep s <> [].
Proof.
  destruct s as [|c s]; simpl; [discriminate|].
  destruct (Ascii.eqb c sep); [discriminate|].
  destruct (Js.split sep s); discriminate.
Qed.

(** Splitting around a separator: the pieces of what is before it, then
    the pieces of what is after it. *)
Lemma split_app sep base rest :
  Js.split sep (base ++ String sep rest)
  = (Js.split sep base ++ Js.split sep rest)%list.
Proof.
  induction base as [|c base IH]; simpl.
  - rewrite Ascii.eqb_refl. reflexivity.
  - destruct (Ascii.eqb c sep); [rewrite IH; reflexivity|].
    rewrite IH.
    destruct (Js.split sep base) as [|h t] eqn:E; [|reflexivity].
    exfalso. exact (split_not_nil sep base E).
Qed.

Lemma split_without_sep sep s :
  has_no sep s = true -> Js.split sep s = [s].
Proof.
  unfold has_no. induction s as [|c s IH]; simpl; intro H; [reflexivity|].
  apply andb_prop in H. destruct H as [H1 H2].
  apply negb_true_iff in H1. rewrite H1, (IH H2). reflexivity.
Qed.

Lemma pop_last_piece base ext :
  has_no "." ext = true ->
  Js.pop (Js.split "." (base ++ String "." ext)) = Some ext.
Proof.
  intro H. rewrite split_app, (split_without_sep _ _ H).
  unfold Js.pop.
  destruct (Js.split "." base ++ [ext])%list eqn:E.
  - destruct (Js.split "." base); discriminate E.
  - rewrite <- E. rewrite last_last. reflexivity.
Qed.

(** X4: only what follows the last dot of the file name counts as its
    extension, in any letter case; a name without a dot is its own
    extension. *)
Theorem acceptable_by_last_extension :
  forall (ty : string) (sz : Z) (base ext : string),
    has_no "." ext = true ->
    acceptable (File.mk ty sz (base ++ "." ++ ext))
    = (Js.startsWith ty "image/" && (sz <=? maxAvatarSize)
       && Js.includes imageExtensions (Js.toLowerCase ext))%bool
    /\ acceptable (File.mk ty sz ext)
       = (Js.startsWith ty "image/" && (sz <=? maxAvatarSize)
          && Js.includes imageExtensions (Js.toLowerCase ext))%bool.
Proof.
  intros ty sz base ext H.
  assert (T : forall s,
            (Js.truthy s && Js.includes imageExtensions s)%bool
            = Js.includes imageExtensions s).
  { intro s. destruct s; reflexivity. }
  unfold acceptable, fileExtension. simpl File.name. split.
  - change (base ++ "." ++ ext) with (base ++ String "." ext).
    rewrite (pop_last_piece base ext H). simpl option_map. cbv iota.
    rewrite T. reflexivity.
  - rewrite (split_without_sep _ _ H). simpl. rewrite T. reflexivity.
Qed.

Lemma acceptable_by_last_extension_witness :
  acceptable (File.mk "image/png" 10 ("holiday.2024" ++ "." ++ "PNG")) = true
  /\ acceptable (File.mk "image/gif" 10 "GIF") = true.
Proof.
  destruct (acceptable_by_last_extension "image/png" 10 "holiday.2024" "PNG"
              eq_refl) as [H1 _].
  destruct (acceptable_by_last_extension "image/gif" 10 "" "GIF" eq_refl)
    as [_ H2].
  rewrite H1, H2. split; reflexivity.
Defined.


(* ================================================================== *)
(** ** fetchProfile: failures and the rows it creates *)

(** Closes [exists new, x = base ++ new /\ ...] once the run has been
    reduced: the list of what was added is read off the goal. *)
Ltac added :=
  rewrite <- ?app_assoc; simpl;
  first [ eexists; split; [reflexivity|]
        | exists []; split; [symmetry; apply app_nil_r|] ].

(** X5: an error of the row query other than "no rows" is surfaced: the
    profile is set to [null], the loading flag is dropped, the provider's
    message is notified (the stock message when it is empty), and neither
    the current user is asked for nor a row inserted. *)
Theorem fetchProfile_surfaces_query_error :
  forall (B : Type) (env : Env B) (userId : string) (l : Local)
         (tr : list Call) (b : B) (e : JsError),
    error (fst (respond env (ProfilesSelectById userId) b)) = Some e ->
    is_PGRST116 e = false ->
    run env (fetchProfile userId) l tr b
    = mkResult (Returned tt)
        (mkLocal (mkAuth (session (auth l)) (user (auth l)) None false)
           (formLoading l)
           (ui l ++ [ConsoleError "Error in profile operation:";
                     Toast "Error"
                       (Js.or_else (Some (message e))
                          "There was an error loading your profile. Please try again.")
                       Destructive])%list)
        (tr ++ [ProfilesSelectById userId])%list
        (snd (respond env (ProfilesSelectById userId) b)).
Proof.
  intros B env userId l tr b e He H116.
  unfold fetchProfile. simpl.
  destruct (respond env (ProfilesSelectById userId) b) as [r b1].
  simpl in *. rewrite He. simpl. rewrite H116. simpl.
  rewrite app_one_one. reflexivity.
Qed.

Lemma fetchProfile_surfaces_query_error_witness :
  run Store.env (fetchProfile "u1") (signedIn aliceSession (Some aliceRow))
      [] (failingTable [aliceRow])
  = mkResult (Returned tt)
      (mkLocal (mkAuth (Some aliceSession) (Some alice) None false) false
         [ConsoleError "Error in profile operation:";
          Toast "Error" "JWT expired" Destructive])
      [ProfilesSelectById "u1"] (failingTable [aliceRow]).
Proof.
  exact (fetchProfile_surfaces_query_error Store.env "u1"
           (signedIn aliceSession (Some aliceRow)) [] (failingTable [aliceRow])
           eq_refl eq_refl).
Defined.

(** X6: whenever [fetchProfile] notifies a failure, the profile it leaves
    is [null]; it notifies at most one failure, and it never throws. *)
Theorem fetchProfile_failure_leaves_no_profile :
  forall (B : Type) (env : Env B) (userId : string) (l : Local)
         (tr : list Call) (b : B),
    let res := run env (fetchProfile userId) l tr b in
    outcome res = Returned tt
    /\ exists evs,
         ui (final res) = (ui l ++ evs)%list
         /\ (List.length (filter is_destructive evs) <= 1)%nat
         /\ (existsb is_destructive evs = true ->
             profile (auth (final res)) = None).
Proof.
  intros B env userId l tr b res. subst res.
  unfold fetchProfile.
  crunch; (split; [reflexivity|]); added;
    (split; [simpl; lia|]); simpl; intro D;
    first [reflexivity | discriminate D].
Qed.

(** X7: [fetchProfile] inserts at most one row, only after the "no rows"
    answer, and every row it inserts is keyed by the id it was asked for,
    has a non-empty username, no avatar, no bio and zero coins. *)
Theorem fetchProfile_inserts_only_fresh_rows :
  forall (B : Type) (env : Env B) (userId : string) (l : Local)
         (tr : list Call) (b : B),
    let res := run env (fetchProfile userId) l tr b in
    exists new,
      calls res = (tr ++ new)%list
      /\ Forall (fresh_row_for userId) new
      /\ (List.length (filter is_insert new) <= 1)%nat
      /\ (existsb is_insert new = true ->
          exists e,
            error (fst (respond env (ProfilesSelectById userId) b)) = Some e
            /\ is_PGRST116 e = true).
Proof.
  intros B env userId l tr b res. subst res.
  unfold fetchProfile. simpl.
  destruct (respond env (ProfilesSelectById userId) b) as [r b1]. simpl.
  destruct (error r) as [e|]; simpl.
  2:{ added.
      split; [repeat constructor|].
      split; [simpl; lia|]. simpl. intro D. discriminate D. }
  destruct (is_PGRST116 e) eqn:E116; simpl.
  2:{ added.
      split; [repeat constructor|].
      split; [simpl; lia|]. simpl. intro D. discriminate D. }
  destruct (respond env AuthGetUser b1) as [[usr|] b2]; simpl.
  2:{ added.
      split; [repeat constructor|].
      split; [simpl; lia|]. simpl. intro D. discriminate D. }
  rewrite !run_finally, !run_try_catch, !run_bind, run_defaultUsername.
  unfold andThen. simpl.
  match goal with
  | |- context [respond env (ProfilesInsert ?row) b2] =>
      destruct (respond env (ProfilesInsert row) b2) as [created b3]
  end.
  simpl. destruct (error created); simpl; added;
    (split; [repeat constructor; simpl; repeat split;
             apply expectedUsername_not_empty|]);
    (split; [simpl; lia|]); intros _; exists e; auto.
Qed.


(* ================================================================== *)
(** ** The auth-event callback: invariants *)

(** X8: after the subscribed callback has handled any event, the stored
    user is the user of the stored session, the stored session is the one
    the event carried (none after [SIGNED_OUT]), and the loading flag is
    down; the callback never throws. *)
Theorem auth_event_keeps_user_in_step_with_session :
  forall (B : Type) (env : Env B) (event : AuthEvent) (s : option Session.t)
         (l : Local) (tr : list Call) (b : B),
    let res := run env (onAuthStateChange true event s) l tr b in
    outcome res = Returned tt
    /\ session (auth (final res)) = (if is_signed_out event then None else s)
    /\ user (auth (final res))
       = option_map Session.user (session (auth (final res)))
    /\ isLoading (auth (final res)) = false.
Proof.
  intros B env event s l tr b res. subst res.
  unfold onAuthStateChange, fetchProfile.
  destruct event, s as [ses|]; crunch; repeat split; reflexivity.
Qed.

(** X9: an event without a session signs the page out, whatever the event
    is called: session, user and profile are cleared, the loading flag is
    down, and the provider is not called. *)
Theorem event_without_session_clears_state :
  forall (B : Type) (env : Env B) (event : AuthEvent) (l : Local)
         (tr : list Call) (b : B),
    let res := run env (onAuthStateChange true event None) l tr b in
    auth (final res) = signedOut /\ calls res = tr /\ world res = b.
Proof.
  intros B env event l tr b res. subst res.
  destruct event; simpl; repeat split; reflexivity.
Qed.

(** X10: on [USER_UPDATED] with a session the profile is loaded twice: the
    row of the session's user is asked for exactly two times, the first
    call being that query, and no row of another id is asked for. *)
Theorem user_updated_loads_profile_twice :
  forall (B : Type) (env : Env B) (s : Session.t) (l : Local)
         (tr : list Call) (b : B),
    let uid := User.id (Session.user s) in
    let res := run env (onAuthStateChange true USER_UPDATED (Some s)) l tr b in
    exists new,
      calls res = (tr ++ new)%list
      /\ List.length (filter (is_row_query_for uid) new) = 2%nat
      /\ List.length (filter is_select_by_id new) = 2%nat
      /\ hd AuthSignOut new = ProfilesSelectById uid.
Proof.
  intros B env s l tr b uid res. subst res uid.
  unfold onAuthStateChange, fetchProfile.
  crunch; added; simpl; rewrite ?String.eqb_refl; simpl;
    repeat split; reflexivity.
Qed.

(** X11: the "Account Verified!" notification is shown by no event other
    than [SIGNED_IN], and not by [SIGNED_IN] either when the email of the
    session's user is not confirmed. *)
Theorem verified_toast_needs_confirmed_sign_in :
  forall (B : Type) (env : Env B) (event : AuthEvent) (s : option Session.t)
         (l : Local) (tr : list Call) (b : B),
    (is_signed_in event
     && match s with
        | Some ses => Js.truthy_opt (User.email_confirmed_at (Session.user ses))
        | None => false
        end)%bool = false ->
    verified_toasts
      (ui (final (run env (onAuthStateChange true event s) l tr b)))
    = verified_toasts (ui l).
Proof.
  intros B env event s l tr b H.
  unfold onAuthStateChange, fetchProfile.
  destruct event, s as [ses|]; simpl in H; try rewrite H;
    crunch;
    unfold verified_toasts; rewrite ?filter_app, ?length_app; simpl;
    rewrite ?Nat.add_0_r; reflexivity.
Qed.

Lemma verified_toast_needs_confirmed_sign_in_witness :
  verified_toasts
    (ui (final (run Store.env
                  (onAuthStateChange true SIGNED_IN (Some carolSession))
                  blank [] (healthy []))))
  = 0%nat.
Proof.
  exact (verified_toast_needs_confirmed_sign_in Store.env SIGNED_IN
           (Some carolSession) blank [] (healthy []) eq_refl).
Defined.

(** X12: an event that carries a session and is not [SIGNED_OUT] stores the
    session and its user and raises the loading flag in its own turn, and
    parks exactly one workflow, waiting for the row of the user; the
    profile shown meanwhile is the previous one. *)
Theorem session_event_parks_one_fetch :
  forall (ans : forall q : Query, Answer q) (event : AuthEvent)
         (s : Session.t) (sys : System),
    is_signed_out event = false ->
    exists t,
      awaiting t = ProfilesSelectById (User.id (Session.user s))
      /\ deliver ans true event (Some s) sys
         = mkSystem
             (mkLocal
                (mkAuth (Some s) (Some (Session.user s))
                        (profile (auth (local sys))) true)
                (formLoading (local sys))
                (ui (local sys) ++ [ConsoleLog "Auth state change:"])%list)
             (inflight sys ++ [t])%list.
Proof.
  intros ans event s sys H.
  unfold deliver, spawn, onAuthStateChange, fetchProfile.
  destruct event; try discriminate H; simpl;
    eexists; (split; [|reflexivity]); reflexivity.
Qed.

Lemma session_event_parks_one_fetch_witness :
  exists t,
    awaiting t = ProfilesSelectById "u1"
    /\ deliver (fun q => Store.answer q (healthy [])) true TOKEN_REFRESHED
               (Some aliceSession)
               (mkSystem (signedIn aliceSession (Some aliceRow)) [])
       = mkSystem
           (mkLocal (mkAuth (Some aliceSession) (Some alice) (Some aliceRow) true)
              false [ConsoleLog "Auth state change:"])
           [t].
Proof.
  exact (session_event_parks_one_fetch
           (fun q => Store.answer q (healthy [])) TOKEN_REFRESHED aliceSession
           (mkSystem (signedIn aliceSession (Some aliceRow)) []) eq_refl).
Defined.


(* ================================================================== *)
(** ** signUp: what it leaves alone *)

(** X13: when the pre-check finds a row, [signUp] stops there: the
    provider's sign-up is not called, "Username is already taken" is
    notified and returned. *)
Theorem signUp_taken_username_stops_before_provider :
  forall (B : Type) (env : Env B) (email password username : string)
         (l : Local) (tr : list Call) (b : B) (found : string),
    data (fst (respond env (ProfilesSelectUsername username) b)) = Some found ->
    run env (signUp email password username) l tr b
    = mkResult (Returned (Some (Error "Username is already taken")))
        (mkLocal (auth l) (formLoading l)
           (ui l ++ [Toast "Signup Failed" "Username is already taken"
                           Destructive])%list)
        (tr ++ [ProfilesSelectUsername username])%list
        (snd (respond env (ProfilesSelectUsername username) b)).
Proof.
  intros B env email password username l tr b found H.
  unfold signUp. simpl.
  destruct (respond env (ProfilesSelectUsername username) b) as [r b1].
  simpl in *. rewrite H. reflexivity.
Qed.

Lemma signUp_taken_username_stops_before_provider_witness :
  calls (run Store.env (signUp "bob2@example.com" "pw" "bob") blank []
             (healthy [aliceRow; bobRow]))
  = [ProfilesSelectUsername "bob"].
Proof.
  rewrite (signUp_taken_username_stops_before_provider Store.env
             "bob2@example.com" "pw" "bob" blank []
             (healthy [aliceRow; bobRow]) (found := "bob") eq_refl).
  reflexivity.
Defined.

(** X14: [signUp] never throws, never writes session, user or profile,
    never navigates, and issues at most two calls. *)
Theorem signUp_never_signs_in :
  forall (B : Type) (env : Env B) (email password username : string)
         (l : Local) (tr : list Call) (b : B),
    let res := run env (signUp email password username) l tr b in
    (exists r, outcome res = Returned r)
    /\ auth (final res) = auth l
    /\ (exists evs,
          ui (final res) = (ui l ++ evs)%list
          /\ existsb is_navigation evs = false)
    /\ exists new,
         calls res = (tr ++ new)%list /\ (List.length new <= 2)%nat.
Proof.
  intros B env email password username l tr b res. subst res.
  unfold signUp.
  crunch;
    (split; [eexists; reflexivity|]);
    (split; [reflexivity|]);
    (split; [added; reflexivity|]);
    added; simpl; lia.
Qed.

(* ================================================================== *)
(** ** handleSubmit: every path *)

Lemma usernameChecks_cases s :
  (usernameChecks s = Ret tt /\ valid_username s)
  \/ exists e, usernameChecks s = Throw e.
Proof.
  pose proof (usernameChecks_checked s) as H.
  inversion H; try (right; eexists; reflexivity).
  left. split; [reflexivity|]. split; assumption.
Qed.

Lemma handleSubmit_after_checks B (env : Env B) u p fd file l tr b :
  usernameChecks (form_username fd) = Ret tt ->
  run env (handleSubmit (Some u) p fd file) l tr b
  = run env (checkedPhase u p fd file) (submitting l) tr b.
Proof.
  intro H. unfold handleSubmit, checkedPhase, submitting.
  cbn -[usernameChecks uniquenessCheck commitSubmission apply].
  rewrite H. reflexivity.
Qed.

Ltac open_checkedPhase :=
  unfold checkedPhase, submitting, uniquenessCheck, commitSubmission,
    avatarStep, uploadAvatar, updateProfile, reportFailure.

(** X15: [handleSubmit] never throws, always ends with the form's loading
    flag down, and leaves session, user and the provider's loading flag as
    they were, whatever is submitted and whatever the provider answers. *)
Theorem handleSubmit_always_settles :
  forall (B : Type) (env : Env B) (u : option User.t) (p : option Profile.t)
         (fd : FormData) (file : option File.t) (l : Local)
         (tr : list Call) (b : B),
    let res := run env (handleSubmit u p fd file) l tr b in
    outcome res = Returned tt
    /\ formLoading (final res) = false
    /\ session (auth (final res)) = session (auth l)
    /\ user (auth (final res)) = user (auth l)
    /\ isLoading (auth (final res)) = isLoading (auth l).
Proof.
  intros B env u p fd file l tr b res. subst res.
  destruct u as [usr|]; [|simpl; repeat split; reflexivity].
  destruct (usernameChecks_cases (form_username fd)) as [[H _]|[e H]].
  - rewrite (handleSubmit_after_checks env usr p fd file l tr b H).
    open_checkedPhase. crunch; repeat split; reflexivity.
  - rewrite (handleSubmit_reports_failed_check env usr p fd file l tr b H).
    repeat split; reflexivity.
Qed.

(** X16: [handleSubmit] reports success to its owner (callback, dialog
    closed) only after a row update the provider accepted, and then
    notifies no failure; on every other path the callback does not run, the
    dialog stays open, the provider state of the page is exactly as before
    and the last thing shown is a failure notification. *)
Theorem handleSubmit_closes_only_on_success :
  forall (B : Type) (env : Env B) (u : option User.t) (p : option Profile.t)
         (fd : FormData) (file : option File.t) (l : Local)
         (tr : list Call) (b : B),
    let res := run env (handleSubmit u p fd file) l tr b in
    exists evs new,
      ui (final res) = (ui l ++ PreventDefault :: evs)%list
      /\ calls res = (tr ++ new)%list
      /\ if existsb is_form_callback evs
         then existsb is_destructive evs = false
              /\ is_row_update (last new AuthSignOut) = true
              /\ last evs PreventDefault = OnOpenChange false
         else auth (final res) = auth l
              /\ is_destructive (last evs PreventDefault) = true.
Proof.
  intros B env u p fd file l tr b res. subst res.
  destruct u as [usr|].
  2:{ simpl. rewrite app_one_one. do 2 eexists.
      split; [reflexivity|]. split; [symmetry; apply app_nil_r|].
      simpl. split; reflexivity. }
  destruct (usernameChecks_cases (form_username fd)) as [[H _]|[e H]].
  - rewrite (handleSubmit_after_checks env usr p fd file l tr b H).
    open_checkedPhase.
    crunch; rewrite <- ?app_assoc; simpl; do 2 eexists;
      (split; [reflexivity|]);
      (split; [first [reflexivity | symmetry; apply app_nil_r]|]);
      simpl; repeat split; reflexivity.
  - rewrite (handleSubmit_reports_failed_check env usr p fd file l tr b H).
    simpl. do 2 eexists.
    split; [reflexivity|]. split; [symmetry; apply app_nil_r|].
    simpl. split; reflexivity.
Qed.

Ltac each_call :=
  repeat match goal with
         | |- Forall _ (_ :: _) => apply Forall_cons
         | |- Forall _ [] => apply Forall_nil
         end.

(** X17: whatever is submitted, the form issues at most one row update; the
    update is keyed by the id of the current user, carries a username of 3
    to 30 characters from [A-Za-z0-9_], and supplies neither [id] nor
    [coins]. *)
Theorem handleSubmit_updates_are_well_formed :
  forall (B : Type) (env : Env B) (u : User.t) (p : option Profile.t)
         (fd : FormData) (file : option File.t) (l : Local)
         (tr : list Call) (b : B),
    let res := run env (handleSubmit (Some u) p fd file) l tr b in
    exists new,
      calls res = (tr ++ new)%list
      /\ (List.length (filter is_row_update new) <= 1)%nat
      /\ Forall (form_update_of u) new.
Proof.
  intros B env u p fd file l tr b res. subst res.
  destruct (usernameChecks_cases (form_username fd)) as [[H V]|[e H]].
  - rewrite (handleSubmit_after_checks env u p fd file l tr b H).
    open_checkedPhase.
    crunch; added; (split; [simpl; lia|]); each_call; simpl;
      try exact I;
      (split; [reflexivity|]); (split; [reflexivity|]);
      (split; [reflexivity|]);
      eexists; (split; [reflexivity|exact V]).
  - rewrite (handleSubmit_reports_failed_check env u p fd file l tr b H).
    simpl. exists []. split; [symmetry; apply app_nil_r|].
    split; [simpl; lia|constructor].
Qed.

(** With a file attached, a row update is issued only right after the
    upload of that file, and the update then carries a non-empty URL. *)
Lemma handleSubmit_saves_only_after_upload :
  forall (B : Type) (env : Env B) (u : option User.t) (p : option Profile.t)
         (fd : FormData) (f : File.t) (l : Local) (tr : list Call) (b : B),
    let res := run env (handleSubmit u p fd (Some f)) l tr b in
    exists new,
      calls res = (tr ++ new)%list
      /\ (existsb is_row_update new = true -> upload_then_update f new).
Proof.
  intros B env u p fd f l tr b res. subst res.
  destruct u as [usr|].
  2:{ simpl. exists []. split; [symmetry; apply app_nil_r|].
      intro D. discriminate D. }
  destruct (usernameChecks_cases (form_username fd)) as [[H V]|[e H]].
  - rewrite (handleSubmit_after_checks env usr p fd (Some f) l tr b H).
    open_checkedPhase.
    crunch; added; simpl; intro D; try discriminate D;
      unfold upload_then_update; simpl;
      (split; [reflexivity|]);
      eexists; (split; [reflexivity|assumption]).
  - rewrite (handleSubmit_reports_failed_check env usr p fd (Some f) l tr b H).
    simpl. exists []. split; [symmetry; apply app_nil_r|].
    intro D. discriminate D.
Qed.

(* ================================================================== *)
(** ** signIn *)

(** X19: [signIn] issues the password sign-in and nothing else, never
    throws and never writes session, user or profile (they arrive through
    the auth event).  It returns no error exactly when the provider
    reported none and returned a user, and it navigates - to the home
    view - exactly then. *)
Theorem signIn_navigates_exactly_on_success :
  forall (B : Type) (env : AppEnv B) (email password : string) (l : Local)
         (tr : list AppCall) (b : B),
    let r := fst (app_respond env (AuthSignInWithPassword email password) b) in
    let res := app_run env (signIn email password) l tr b in
    app_calls res = (tr ++ [AuthSignInWithPassword email password])%list
    /\ auth (app_final res) = auth l
    /\ (exists v, app_outcome res = Returned v)
    /\ (app_outcome res = Returned None
        <-> signin_error r = None /\ signin_user r <> None)
    /\ exists evs,
         ui (app_final res) = (ui l ++ evs)%list
         /\ (app_outcome res = Returned None ->
             evs = [Toast "Login Successful" "Welcome back!" Default;
                    Navigate "/"])
         /\ (app_outcome res <> Returned None ->
             existsb is_navigation evs = false
             /\ is_destructive (last evs PreventDefault) = true).
Proof.
  intros B env email password l tr b. simpl.
  destruct (app_respond env (AuthSignInWithPassword email password) b)
    as [r b1].
  simpl. destruct (signin_error r) as [e|]; simpl.
  - repeat split; try (eexists; reflexivity); try discriminate.
    + intros [D _]. discriminate D.
    + rewrite app_one_one. eexists. split; [reflexivity|].
      split; [discriminate|]. intros _. split; reflexivity.
  - destruct (signin_user r) as [usr|]; simpl.
    + repeat split; try (eexists; reflexivity); try discriminate.
      rewrite app_one_one. eexists. split; [reflexivity|].
      split; [reflexivity|]. intro D. exfalso. apply D. reflexivity.
    + repeat split; try (eexists; reflexivity); try discriminate.
      * intros [_ D]. exfalso. apply D. reflexivity.
      * rewrite app_one_one. eexists. split; [reflexivity|].
        split; [discriminate|]. intros _. split; reflexivity.
Qed.

(* ================================================================== *)
(** ** getInitialSession *)

(** X20: the session restoration of a mounted provider never throws and
    always ends with the loading flag down and the stored user being the
    user of the stored session.  The stored session is the one the
    provider returned, none when it reported an error; without a session
    the profile is cleared and no further call is made. *)
Theorem getInitialSession_settles :
  forall (B : Type) (env : AppEnv B) (l : Local) (tr : list AppCall) (b : B),
    let r := fst (app_respond env AuthGetSession b) in
    let res := app_run env (getInitialSession true) l tr b in
    app_outcome res = Returned tt
    /\ isLoading (auth (app_final res)) = false
    /\ user (auth (app_final res))
       = option_map Session.user (session (auth (app_final res)))
    /\ session (auth (app_final res))
       = match restore_error r with
         | Some _ => None
         | None => restored r
         end
    /\ (session (auth (app_final res)) = None ->
        profile (auth (app_final res)) = None
        /\ app_calls res = (tr ++ [AuthGetSession])%list)
    /\ (restore_error r <> None ->
        existsb is_destructive (ui (app_final res)) = true).
Proof.
  intros B env l tr b. simpl.
  destruct (app_respond env AuthGetSession b) as [r b1]. simpl.
  destruct (restore_error r) as [e|]; simpl.
  - repeat split; try reflexivity.
    intros _. rewrite existsb_app. simpl. apply orb_true_r.
  - destruct (restored r) as [ses|]; simpl.
    + unfold fetchProfile.
      crunch; repeat split; try reflexivity; try discriminate;
        intro D; exfalso; apply D; reflexivity.
    + repeat split; try reflexivity.
      intro D. exfalso. apply D. reflexivity.
Qed.

(** X21: when the provider has been unmounted by the time the stored
    session arrives, the restoration writes nothing and loads no profile,
    whatever the provider answered. *)
Theorem getInitialSession_unmounted_writes_nothing :
  forall (B : Type) (env : AppEnv B) (l : Local) (tr : list AppCall) (b : B),
    let res := app_run env (getInitialSession false) l tr b in
    app_outcome res = Returned tt
    /\ auth (app_final res) = auth l
    /\ formLoading (app_final res) = formLoading l
    /\ app_calls res = (tr ++ [AuthGetSession])%list.
Proof.
  intros B env l tr b. simpl.
  destruct (app_respond env AuthGetSession b) as [r b1]. simpl.
  destruct (restore_error r); simpl; repeat split; reflexivity.
Qed.

(* ================================================================== *)
(** ** isAdmin *)

(** X22: [isAdmin] answers [true] only when the provider knows the current
    user and the query for that user's row reports no error and returns a
    row whose [is_admin] is [true]; in every other case - no user, an
    error, no row, a null flag - it answers [false].  It never throws, has
    no local effect, and without a user it does not query the table. *)
Theorem isAdmin_fails_closed :
  forall (B : Type) (env : AppEnv B) (l : Local) (tr : list AppCall) (b : B),
    let u := fst (app_respond env (Base AuthGetUser) b) in
    let b1 := snd (app_respond env (Base AuthGetUser) b) in
    let res := app_run env isAdmin l tr b in
    app_final res = l
    /\ (exists v, app_outcome res = Returned v)
    /\ (app_outcome res = Returned true
        <-> exists usr,
              u = Some usr
              /\ fst (app_respond env (ProfilesSelectIsAdmin (User.id usr)) b1)
                 = mkQuery (Some (Some true)) None)
    /\ (u = None -> app_calls res = (tr ++ [Base AuthGetUser])%list).
Proof.
  intros B env l tr b. simpl.
  destruct (app_respond env (Base AuthGetUser) b) as [u b1]. simpl.
  destruct u as [usr|]; simpl.
  2:{ repeat split; try (eexists; reflexivity); try discriminate.
      intros (usr & D & _). discriminate D. }
  destruct (app_respond env (ProfilesSelectIsAdmin (User.id usr)) b1)
    as [[d e] b2] eqn:Q. simpl.
  assert (No : forall v : bool,
            (d, e) <> (Some (Some true), None) ->
            Returned false = Returned true
            <-> exists usr0,
                  Some usr = Some usr0
                  /\ fst (app_respond env
                            (ProfilesSelectIsAdmin (User.id usr0)) b1)
                     = mkQuery (Some (Some true)) None).
  { intros _ N. split; [intro D; discriminate D|].
    intros (usr0 & E0 & E1). injection E0 as <-. rewrite Q in E1.
    simpl in E1. exfalso. apply N. injection E1 as -> ->. reflexivity. }
  destruct e as [er|]; [|destruct d as [[[|]|]|]]; simpl;
    (split; [reflexivity|]);
    (split; [eexists; reflexivity|]);
    (split; [|intro D; discriminate D]);
    try (apply (No true); intro D; discriminate D).
  split; [|reflexivity].
  intros _. exists usr. split; [reflexivity|]. rewrite Q. reflexivity.
Qed.


(* ================================================================== *)
(** ** Usernames: what the form accepts and what fetchProfile creates *)

Lemma word_char_not_space c :
  Js.word_char c = true -> Js.is_space c = false.
Proof.
  destruct c as [b0 b1 b2 b3 b4 b5 b6 b7].
  destruct b0, b1, b2, b3, b4, b5, b6, b7; vm_compute; intro H;
    first [reflexivity | discriminate H].
Qed.

Lemma valid_username_passes s :
  valid_username s -> usernameChecks s = Ret tt.
Proof.
  intros [[L3 L30] W].
  unfold usernameChecks, throw_if. rewrite truthy_trim.
  assert (Sp : Js.all_chars Js.is_space s = false).
  { destruct s as [|c s]; [unfold Js.len in L3; simpl in L3; lia|].
    simpl in *. apply andb_prop in W. destruct W as [Wc _].
    rewrite (word_char_not_space c Wc). reflexivity. }
  rewrite Sp. simpl.
  destruct (Z.ltb_spec (Js.len s) 3); [lia|]. simpl.
  destruct (Z.ltb_spec 30 (Js.len s)); [lia|]. simpl.
  unfold Js.test_word_plus. rewrite (len_pos_truthy s L3), W. reflexivity.
Qed.

(** X23: the username checks of the form let through exactly the usernames
    of 3 to 30 characters, all from [A-Za-z0-9_]. *)
Theorem usernameChecks_accept_exactly_valid :
  forall s : string, usernameChecks s = Ret tt <-> valid_username s.
Proof.
  intro s. split; [|apply valid_username_passes].
  intro H. destruct (usernameChecks_cases s) as [[_ V]|[e E]];
    [exact V|]. rewrite H in E. discriminate E.
Qed.

(** X24: the username [fetchProfile] gives a new profile is the local part
    of the email as it stands; the form's checks let it through exactly
    when that local part is itself 3 to 30 characters from
    [A-Za-z0-9_]. *)
Theorem created_username_is_raw_local_part :
  forall (B : Type) (env : Env B) (u : User.t) (e : string) (l : Local)
         (tr : list Call) (b : B),
    User.email u = Some e ->
    Js.truthy (hd EmptyString (Js.split "@" e)) = true ->
    let localPart := hd EmptyString (Js.split "@" e) in
    run env (defaultUsername u) l tr b = mkResult (Returned localPart) l tr b
    /\ (usernameChecks localPart = Ret tt <-> valid_username localPart).
Proof.
  intros B env u e l tr b E T localPart. split.
  - rewrite run_defaultUsername. unfold expectedUsername.
    rewrite E. fold localPart. subst localPart. rewrite T. reflexivity.
  - split; [|apply valid_username_passes].
    intro H. destruct (usernameChecks_cases localPart) as [[_ V]|[x X]];
      [exact V|]. rewrite H in X. discriminate X.
Qed.

Lemma created_username_is_raw_local_part_witness :
  run Store.env (defaultUsername john) blank [] (healthy [])
  = mkResult (Returned "john.doe") blank [] (healthy [])
  /\ (usernameChecks "john.doe" = Ret tt <-> valid_username "john.doe").
Proof.
  exact (created_username_is_raw_local_part Store.env john blank []
           (healthy []) eq_refl eq_refl).
Defined.

(* ================================================================== *)
(** ** Which stored asset is deleted *)

(** X25: the asset [uploadAvatar] deletes is named by what follows the last
    [/] of the current avatar URL. *)
Theorem oldAsset_is_last_path_segment :
  forall (p : Profile.t) (prefix name : string),
    Profile.avatar_url p = Some (prefix ++ "/" ++ name) ->
    has_no "/" name = true ->
    name <> EmptyString ->
    oldAsset (Some p) = Some name.
Proof.
  intros p prefix name U N E.
  unfold oldAsset. rewrite U.
  assert (T : Js.truthy (prefix ++ "/" ++ name) = true).
  { destruct prefix; reflexivity. }
  rewrite T.
  change (prefix ++ "/" ++ name) with (prefix ++ String "/" name).
  rewrite split_app, (split_without_sep _ _ N).
  unfold Js.pop.
  destruct (Js.split "/" prefix ++ [name])%list eqn:Q.
  - destruct (Js.split "/" prefix); discriminate Q.
  - rewrite <- Q, last_last.
    destruct name; [contradiction E; reflexivity|reflexivity].
Qed.

Lemma oldAsset_is_last_path_segment_witness :
  oldAsset (Some aliceWithAvatar) = Some "u1-1.png".
Proof.
  apply (@oldAsset_is_last_path_segment aliceWithAvatar
           "https://cdn.example/storage/v1/object/public/avatars" "u1-1.png").
  - reflexivity.
  - reflexivity.
  - discriminate.
Defined.

(* ================================================================== *)
(** ** A refused upload saves nothing *)

(** The uniqueness check has no local effect; it asks its one question
    when the username was changed and none otherwise. *)
Lemma uniquenessCheck_run B (env : Env B) u fd p l tr b :
  let q := ProfilesSelectUsernameOther (User.id u) (form_username fd) in
  run env (uniquenessCheck u fd p) l tr b
  = mkResult (outcome (run env (uniquenessCheck u fd p) l tr b)) l
      (tr ++ if username_changed fd p then [q] else [])%list
      (if username_changed fd p then snd (respond env q b) else b).
Proof.
  unfold uniquenessCheck.
  destruct (username_changed fd p); simpl.
  - destruct (respond env
                (ProfilesSelectUsernameOther (User.id u) (form_username fd)) b)
      as [r b1].
    simpl. destruct (data r); [reflexivity|].
    destruct (error r) as [e|]; [|reflexivity].
    destruct (is_PGRST116 e); reflexivity.
  - rewrite app_nil_r. reflexivity.
Qed.

(** X18: with a valid file attached, the checks passed and no conflict
    found, a provider that refuses the upload makes [handleSubmit] save
    nothing: the upload is its last call, so no row update is issued; the
    refusal is notified, then "Failed to upload avatar"; the callback does
    not run, the dialog stays open and session, user and profile are as
    before. *)
Theorem handleSubmit_saves_nothing_when_upload_refused :
  forall (B : Type) (env : Env B) (u : User.t) (p : option Profile.t)
         (fd : FormData) (f : File.t) (l : Local) (tr : list Call) (b : B),
    usernameChecks (form_username fd) = Ret tt ->
    acceptable f = true ->
    outcome (run env (uniquenessCheck u fd p) (submitting l) tr b)
    = Returned tt ->
    exists ext,
      fileExtension f = Some ext
      /\ let q := ProfilesSelectUsernameOther (User.id u) (form_username fd) in
         let asked := if username_changed fd p then [q] else [] in
         let b1 := if username_changed fd p then snd (respond env q b) else b in
         let removal :=
           match oldAsset p with Some o => [StorageRemove o] | None => [] end in
         let w :=
           match oldAsset p with
           | Some o => snd (respond env (StorageRemove o) b1)
           | None => b1
           end in
         let name := avatarFileName (Some u) (answer env DateNow w) ext in
         forall e,
           fst (respond env (StorageUpload name f) w) = Some e ->
           run env (handleSubmit (Some u) p fd (Some f)) l tr b
           = mkResult (Returned tt)
               (mkLocal (auth l) false
                  (ui l
                   ++ [PreventDefault;
                       Toast "Avatar Upload Failed"
                             (Js.or_else (Some (message e))
                                         "Failed to upload avatar")
                             Destructive;
                       Toast "Error" "Failed to upload avatar" Destructive])%list)
               (tr ++ asked ++ removal ++ [StorageUpload name f])%list
               (snd (respond env (StorageUpload name f) w)).
Proof.
  intros B env u p fd f l tr b Hvalid Hacc Hchk.
  set (q := ProfilesSelectUsernameOther (User.id u) (form_username fd)).
  set (asked := if username_changed fd p then [q] else []).
  set (b1 := if username_changed fd p then snd (respond env q b) else b).
  destruct (uploadAvatar_accepted_run env (Some u) p f (submitting l)
              (tr ++ asked)%list b1 Hacc) as (ext & E & R).
  exists ext. split; [exact E|].
  cbv zeta in R. cbv zeta. fold q asked b1. intros e Href.
  rewrite (handleSubmit_after_checks env u p fd (Some f) l tr b Hvalid).
  unfold checkedPhase.
  rewrite run_finally, run_try_catch, run_bind.
  rewrite uniquenessCheck_run. fold q asked b1. rewrite Hchk.
  unfold andThen. simpl outcome. cbv iota.
  simpl final. simpl calls. simpl world.
  unfold commitSubmission, avatarStep.
  rewrite !run_bind, R. unfold andThen.
  match goal with
  | H : fst (respond env (StorageUpload ?n f) ?w) = Some e |- _ =>
      destruct (respond env (StorageUpload n f) w) as [r b2]
  end.
  simpl in Href. subst r. simpl.
  rewrite <- !app_assoc. reflexivity.
Qed.

Lemma handleSubmit_saves_nothing_when_upload_refused_witness :
  let res := run refusingUploads
                 (handleSubmit (Some alice) (Some aliceWithAvatar) aliceForm
                               (Some photo))
                 (signedIn aliceSession (Some aliceWithAvatar)) []
                 (healthy [aliceWithAvatar]) in
  calls res
  = [StorageRemove "u1-1.png"; StorageUpload "u1-1700000000000.png" photo]
  /\ Store.rows (world res) = [aliceWithAvatar]
  /\ profile (auth (final res)) = Some aliceWithAvatar.
Proof.
  intro res.
  destruct (handleSubmit_saves_nothing_when_upload_refused refusingUploads
              alice (Some aliceWithAvatar) aliceForm photo
              (signedIn aliceSession (Some aliceWithAvatar)) []
              (healthy [aliceWithAvatar]) eq_refl eq_refl eq_refl)
    as (ext & E & H).
  injection E as <-. cbv zeta in H.
  subst res. rewrite (H quotaExceeded eq_refl).
  repeat split; reflexivity.
Defined.
